(** * binance-service.ts: signed requests, retries, price cache, valuation

    A shallow embedding of [BinanceService] (src/src/binance-service.ts).

    - Strings are byte strings ([string]); template literals are [+:+].
    - [Date.now()] and every millisecond quantity are integers ([Z]).
    - A JavaScript [number] holding a quantity or a price is an exact
      rational, [NaN] or an infinity ([number] below): the rounding of IEEE
      doubles is outside the model.
    - An [async] method is a function from the state of the world (clock,
      exchange, requests sent, price cache, arrays on the heap) to a
      completion and the next state; [await] is sequencing.  One call runs
      at a time: calls of the service do not interleave.
    - [console.log] and its kin are left out. *)

From Stdlib Require Import ZArith QArith String Ascii List DecimalString Sorting.Sorted Permutation.
From stdpp Require Import gmap strings list.

Open Scope string_scope.
Open Scope list_scope.
Open Scope Z_scope.

(** ** Node's [crypto.createHmac('sha256', key).update(msg).digest('hex')]

    FIPS 180-4 (SHA-256) and RFC 2104 (HMAC) over bytes; a byte is a [Z] in
    [0, 256), a word a [Z] in [0, 2^32). *)
Module Crypto.

Definition w32 (x : Z) : Z := x mod 2 ^ 32.

Definition rotr (n x : Z) : Z :=
  Z.lor (Z.shiftr x n) (w32 (Z.shiftl x (32 - n))).

Definition Ch (x y z : Z) : Z :=
  Z.lxor (Z.land x y) (Z.land (w32 (Z.lnot x)) z).

Definition Maj (x y z : Z) : Z :=
  Z.lxor (Z.lxor (Z.land x y) (Z.land x z)) (Z.land y z).

Definition Sigma0 (x : Z) : Z := Z.lxor (Z.lxor (rotr 2 x) (rotr 13 x)) (rotr 22 x).
Definition Sigma1 (x : Z) : Z := Z.lxor (Z.lxor (rotr 6 x) (rotr 11 x)) (rotr 25 x).
Definition sigma0 (x : Z) : Z := Z.lxor (Z.lxor (rotr 7 x) (rotr 18 x)) (Z.shiftr x 3).
Definition sigma1 (x : Z) : Z := Z.lxor (Z.lxor (rotr 17 x) (rotr 19 x)) (Z.shiftr x 10).

(** The first primes, by trial division. *)
Definition is_prime (n : Z) : bool :=
  forallb (fun d => negb (n mod Z.of_nat d =? 0)) (seq 2 (Z.to_nat n - 2)).

Definition primes (count : nat) : list Z :=
  firstn count (List.filter is_prime (map Z.of_nat (seq 2 310))).

(** The integer cube root, one bit at a time from bit [bits - 1] down. *)
Fixpoint cube_root (bits : nat) (n root : Z) : Z :=
  match bits with
  | O => root
  | S bits' =>
      let candidate := root + 2 ^ Z.of_nat bits' in
      if candidate * candidate * candidate <=? n
      then cube_root bits' n candidate
      else cube_root bits' n root
  end.

(** The round constants: the first 32 bits of the fractional parts of the
    cube roots of the first 64 primes. *)
Definition K : list Z :=
  Eval vm_compute in map (fun p => w32 (cube_root 40 (p * 2 ^ 96) 0)) (primes 64).

(** The initial hash value: the same of the square roots of the first 8
    primes. *)
Definition H0 : list Z :=
  Eval vm_compute in map (fun p => w32 (Z.sqrt (p * 2 ^ 64))) (primes 8).

(** Big-endian bytes of [x], [n] of them. *)
Fixpoint be_bytes (n : nat) (x : Z) : list Z :=
  match n with
  | O => []
  | S n' => (Z.shiftr x (8 * Z.of_nat n')) mod 256 :: be_bytes n' x
  end.

Definition be_word (bs : list Z) : Z :=
  fold_left (fun acc b => acc * 256 + b) bs 0.

(** Padding: the bit 1, zeros up to 56 mod 64 bytes, the bit length on 8 bytes. *)
Definition pad (msg : list Z) : list Z :=
  let len := Z.of_nat (length msg) in
  let zeros := Z.to_nat ((55 - len) mod 64) in
  msg ++ 0x80 :: repeat 0 zeros ++ be_bytes 8 (8 * len).

Fixpoint words (n : nat) (bs : list Z) : list Z :=
  match n with
  | O => []
  | S n' => be_word (firstn 4 bs) :: words n' (skipn 4 bs)
  end.

(** The message schedule, newest word first: [rev] gives W0 .. W63. *)
Fixpoint schedule (n : nat) (ws : list Z) : list Z :=
  match n with
  | O => ws
  | S n' =>
      let w := w32 (sigma1 (nth 1 ws 0) + nth 6 ws 0 + sigma0 (nth 14 ws 0) + nth 15 ws 0) in
      schedule n' (w :: ws)
  end.

Definition round (st : list Z) (kw : Z * Z) : list Z :=
  match st with
  | [a; b; c; d; e; f; g; h] =>
      let t1 := h + Sigma1 e + Ch e f g + fst kw + snd kw in
      let t2 := Sigma0 a + Maj a b c in
      [w32 (t1 + t2); a; b; c; w32 (d + t1); e; f; g]
  | _ => st
  end.

Definition compress (h : list Z) (block : list Z) : list Z :=
  let ws := rev (schedule 48 (rev (words 16 block))) in
  let st := fold_left round (combine K ws) h in
  map (fun p => w32 (fst p + snd p)) (combine h st).

Fixpoint blocks (n : nat) (h : list Z) (bs : list Z) : list Z :=
  match n with
  | O => h
  | S n' => blocks n' (compress h (firstn 64 bs)) (skipn 64 bs)
  end.

Definition sha256 (msg : list Z) : list Z :=
  let padded := pad msg in
  flat_map (be_bytes 4) (blocks (length padded / 64) H0 padded).

Definition hmac_sha256 (key msg : list Z) : list Z :=
  let key0 := if Z.ltb 64 (Z.of_nat (length key)) then sha256 key else key in
  let key1 := key0 ++ repeat 0 (64 - length key0) in
  let ipad := map (Z.lxor 0x36) key1 in
  let opad := map (Z.lxor 0x5c) key1 in
  sha256 (opad ++ sha256 (ipad ++ msg)).

Definition bytes_of_string (s : string) : list Z :=
  map (fun c => Z.of_N (N_of_ascii c)) (list_ascii_of_string s).

Definition hex_digit (d : Z) : ascii :=
  nth (Z.to_nat d) (list_ascii_of_string "0123456789abcdef") "0"%char.

Definition hex (bs : list Z) : string :=
  string_of_list_ascii (flat_map (fun b => [hex_digit (b / 16); hex_digit (b mod 16)]) bs).

(** [createHmac('sha256', key).update(msg).digest('hex')] on strings. *)
Definition createHmac_sha256_hex (key msg : string) : string :=
  hex (hmac_sha256 (bytes_of_string key) (bytes_of_string msg)).

End Crypto.

(** ** JavaScript numbers

    A [number] is [NaN], an infinity or an exact rational in lowest terms
    (every operation reduces its result, so that equal numbers are equal
    terms).  There is one zero. *)
Inductive number : Type :=
| NaN
| Infinity (negative : bool)
| Fin (q : Q).

Definition num (z : Z) : number := Fin (inject_Z z).

(** [x + y] *)
Definition add (x y : number) : number :=
  match x, y with
  | NaN, _ | _, NaN => NaN
  | Infinity a, Infinity b => if Bool.eqb a b then Infinity a else NaN
  | Infinity a, Fin _ | Fin _, Infinity a => Infinity a
  | Fin p, Fin q => Fin (Qred (p + q))
  end.

Definition neg (x : number) : number :=
  match x with
  | NaN => NaN
  | Infinity a => Infinity (negb a)
  | Fin p => Fin (Qred (- p))
  end.

(** [x - y] *)
Definition sub (x y : number) : number := add x (neg y).

(** [x * y] *)
Definition mul (x y : number) : number :=
  match x, y with
  | NaN, _ | _, NaN => NaN
  | Infinity a, Infinity b => Infinity (xorb a b)
  | Infinity a, Fin q | Fin q, Infinity a =>
      match (q ?= 0)%Q with
      | Eq => NaN
      | Gt => Infinity a
      | Lt => Infinity (negb a)
      end
  | Fin p, Fin q => Fin (Qred (p * q))
  end.

(** [x < y]: false as soon as one side is [NaN]. *)
Definition ltb (x y : number) : bool :=
  match x, y with
  | NaN, _ | _, NaN => false
  | Infinity a, Infinity b => a && negb b
  | Infinity a, Fin _ => a
  | Fin _, Infinity b => negb b
  | Fin p, Fin q => match (p ?= q)%Q with Lt => true | _ => false end
  end.

(** [x > y] *)
Definition gtb (x y : number) : bool := ltb y x.

(** [x >= y] *)
Definition geb (x y : number) : bool :=
  match x, y with
  | NaN, _ | _, NaN => false
  | _, _ => negb (ltb x y)
  end.

(** ToBoolean: [NaN] and zero are falsy. *)
Definition truthy (x : number) : bool :=
  match x with
  | NaN => false
  | Infinity _ => true
  | Fin q => negb (Qeq_bool q 0)
  end.

(** [x || y] on numbers. *)
Definition or_else (x y : number) : number := if truthy x then x else y.

Arguments add : simpl never.
Arguments neg : simpl never.
Arguments sub : simpl never.
Arguments mul : simpl never.
Arguments ltb : simpl never.
Arguments gtb : simpl never.
Arguments geb : simpl never.
Arguments or_else : simpl never.

(** *** [parseFloat]

    Leading white space is skipped, then the longest prefix that is a
    decimal literal (sign, [Infinity] or digits with an optional fraction and
    exponent) is read; anything after it is ignored, and no such prefix gives
    [NaN]. *)
Definition is_space (c : ascii) : bool :=
  let n := Z.of_N (N_of_ascii c) in
  (n =? 32) || ((9 <=? n) && (n <=? 13)).

Definition digit (c : ascii) : option Z :=
  let n := Z.of_N (N_of_ascii c) in
  if (48 <=? n) && (n <=? 57) then Some (n - 48) else None.

Fixpoint skip_space (s : list ascii) : list ascii :=
  match s with
  | c :: s' => if is_space c then skip_space s' else s
  | [] => []
  end.

(** The digits at the head of [s]: their value after [acc], how many were
    read after [count], and the rest of [s]. *)
Fixpoint digits (s : list ascii) (acc : Z) (count : nat) : Z * nat * list ascii :=
  match s with
  | c :: s' =>
      match digit c with
      | Some d => digits s' (acc * 10 + d) (S count)
      | None => (acc, count, s)
      end
  | [] => (acc, count, [])
  end.

Fixpoint starts_with (p s : list ascii) : bool :=
  match p, s with
  | [], _ => true
  | a :: p', b :: s' => if Ascii.eqb a b then starts_with p' s' else false
  | _ :: _, [] => false
  end.

Definition read_sign (s : list ascii) : bool * list ascii :=
  match s with
  | "-"%char :: s' => (true, s')
  | "+"%char :: s' => (false, s')
  | _ => (false, s)
  end.

(** The exponent part at the head of [s], 0 when there is none. *)
Definition read_exponent (s : list ascii) : Z :=
  match s with
  | c :: s' =>
      if Ascii.eqb c "e" || Ascii.eqb c "E" then
        let '(negative, s'') := read_sign s' in
        let '(e, n, _) := digits s'' 0 0%nat in
        match n with
        | O => 0
        | _ => if negative then - e else e
        end
      else 0
  | [] => 0
  end.

Definition parseFloat (str : string) : number :=
  let '(negative, s) := read_sign (skip_space (list_ascii_of_string str)) in
  if starts_with (list_ascii_of_string "Infinity") s then Infinity negative
  else
    let '(ip, ni, s1) := digits s 0 0%nat in
    let '(m, nf, s2) :=
      match s1 with
      | "."%char :: s1' => let '(m, nf, s2) := digits s1' ip 0%nat in (m, nf, s2)
      | _ => (ip, 0%nat, s1)
      end in
    match (ni + nf)%nat with
    | O => NaN
    | _ =>
        let e := read_exponent s2 - Z.of_nat nf in
        let q := (inject_Z m * Qpower (inject_Z 10) e)%Q in
        Fin (Qred (if negative then - q else q))
    end.

Arguments parseFloat : simpl never.

(** ** Data (the interfaces of the source) *)

Record PriceData := { symbol : string; price : string }.

Record AssetBalance := { asset : string; free : string; locked : string }.

Record AccountInfo := { balances : list AssetBalance }.

Module ParsedAsset.
Record t := {
  asset : string;
  free : number;
  locked : number;
  total : number;
  usdtValue : number;
  type : string;
  currentPrice : option number   (* [None] is [null] *)
}.
End ParsedAsset.

Record PortfolioData := {
  totalUSDT : number;
  assets : list ParsedAsset.t;
  lastUpdated : Z
}.

(** What the source types as [any]: a response body, and what [makeRequest],
    [getAllPrices] and [getSymbolPrices] hand back.  The shapes are the ones
    the service meets: nothing, an account, one quote, the exchange's
    [{code, msg}] error object, and an array of values. *)
#[warnings="-register-all"] Inductive any : Type :=
| undefined
| ofAccountInfo (a : AccountInfo)
| ofPriceData (p : PriceData)
| errorBody (code : Z) (msg : string)
| array (xs : list any).

(** ** axios *)

Module AxiosResponse.
Record t := { status : Z; statusText : string; data : any }.
End AxiosResponse.

Module AxiosRequestConfig.
Record t := {
  method : string;
  url : string;
  headers : list (string * string);
  data : option string;
  timeout : Z;
  validateStatus : Z -> bool
}.
End AxiosRequestConfig.

(** The fields of an axios error the service reads; [request] says whether
    [error.request] is set. *)
Module AxiosError.
Record t := {
  response : option AxiosResponse.t;
  code : option string;
  message : string;
  request : bool
}.
End AxiosError.

(** What can be thrown: an axios error, [new Error(message)], or the
    [TypeError] of a property read on [undefined] or a call of a non-function. *)
Inductive Thrown : Type :=
| AxiosErr (e : AxiosError.t)
| Error (message : string)
| TypeError (message : string).

Module CacheEntry.
Record t := { data : any; timestamp : Z }.
End CacheEntry.

(** ** The world

    The exchange answers the [n]-th request ever sent ([n] counts from 0)
    either with an HTTP response or with a failure that has no response, and
    takes [latency] milliseconds to do so. *)
Inductive Outcome : Type :=
| Replied (r : AxiosResponse.t)
| Failed (code : option string) (message : string) (request : bool).

Record Reply := { outcome : Outcome; latency : Z }.

Definition loc := positive.

Record World := {
  clock : Z;                                         (* what [Date.now()] returns *)
  exchange : nat -> AxiosRequestConfig.t -> Reply;
  requests : list (Z * AxiosRequestConfig.t);        (* sent so far, oldest first, with the time of sending *)
  priceCache : gmap string CacheEntry.t;             (* [this.priceCache] *)
  heap : gmap loc (list string)                      (* the [string[]] arrays *)
}.

Definition set_clock (t : Z) (w : World) : World :=
  {| clock := t; exchange := exchange w; requests := requests w;
     priceCache := priceCache w; heap := heap w |}.

Definition set_requests (rs : list (Z * AxiosRequestConfig.t)) (w : World) : World :=
  {| clock := clock w; exchange := exchange w; requests := rs;
     priceCache := priceCache w; heap := heap w |}.

Definition set_priceCache (c : gmap string CacheEntry.t) (w : World) : World :=
  {| clock := clock w; exchange := exchange w; requests := requests w;
     priceCache := c; heap := heap w |}.

Definition set_heap (h : gmap loc (list string)) (w : World) : World :=
  {| clock := clock w; exchange := exchange w; requests := requests w;
     priceCache := priceCache w; heap := h |}.

(** ** Async computations *)

Inductive Completion (A : Type) : Type :=
| Return (a : A)
| Throw (e : Thrown).
Arguments Return {A} a.
Arguments Throw {A} e.

Definition Async (A : Type) : Type := World -> Completion A * World.

Definition ret {A} (a : A) : Async A := fun w => (Return a, w).

Definition throw {A} (e : Thrown) : Async A := fun w => (Throw e, w).

Definition bind {A B} (m : Async A) (k : A -> Async B) : Async B :=
  fun w =>
    match m w with
    | (Return a, w') => k a w'
    | (Throw e, w') => (Throw e, w')
    end.

(** [try { body } catch (error) { handler }] *)
Definition try_catch {A} (body : Async A) (handler : Thrown -> Async A) : Async A :=
  fun w =>
    match body w with
    | (Return a, w') => (Return a, w')
    | (Throw e, w') => handler e w'
    end.

Notation "x <- m ;; k" := (bind m (fun x => k))
  (at level 100, m at next level, right associativity).
Notation "'do' m ;; k" := (bind m (fun _ => k))
  (at level 100, m at next level, right associativity).

(** [Date.now()] *)
Definition Date_now : Async Z := fun w => (Return (clock w), w).

(** [await new Promise(resolve => setTimeout(resolve, ms))] *)
Definition sleep (ms : Z) : Async unit := fun w => (Return tt, set_clock (clock w + ms) w).

Definition toString (z : Z) : string := NilZero.string_of_int (Z.to_int z).

(** [axios(config)]: the request is sent, the exchange answers, and a
    response whose status fails [validateStatus] is a rejection that carries
    the response. *)
Definition axios (config : AxiosRequestConfig.t) : Async AxiosResponse.t :=
  fun w =>
    let reply := exchange w (length (requests w)) config in
    let w' := set_clock (clock w + latency reply)
                (set_requests (requests w ++ [(clock w, config)]) w) in
    match outcome reply with
    | Replied r =>
        if AxiosRequestConfig.validateStatus config (AxiosResponse.status r)
        then (Return r, w')
        else (Throw (AxiosErr {|
                AxiosError.response := Some r;
                AxiosError.code :=
                  if (400 <=? AxiosResponse.status r) && (AxiosResponse.status r <? 500)
                  then Some "ERR_BAD_REQUEST"
                  else if (500 <=? AxiosResponse.status r) && (AxiosResponse.status r <? 600)
                  then Some "ERR_BAD_RESPONSE" else None;
                AxiosError.message :=
                  "Request failed with status code " +:+ toString (AxiosResponse.status r);
                AxiosError.request := true |}), w')
    | Failed code message request =>
        (Throw (AxiosErr {|
           AxiosError.response := None;
           AxiosError.code := code;
           AxiosError.message := message;
           AxiosError.request := request |}), w')
    end.

(** [axios.get(url)]: the defaults of axios, a status in [200, 300) resolves. *)
Definition get_config (url : string) : AxiosRequestConfig.t :=
  {| AxiosRequestConfig.method := "get";
     AxiosRequestConfig.url := url;
     AxiosRequestConfig.headers := [];
     AxiosRequestConfig.data := None;
     AxiosRequestConfig.timeout := 0;
     AxiosRequestConfig.validateStatus := fun status => (200 <=? status) && (status <? 300) |}.

Definition axios_get (url : string) : Async AxiosResponse.t := axios (get_config url).

(** ** Arrays

    [Array.prototype.sort(comparefn)] is stable and orders [a] after [b] when
    [comparefn(a, b) > 0]; a [NaN] result counts as 0.  For a consistent
    [comparefn] that fixes the result, here computed by insertion. *)
Section Array_sort.
Context {A : Type} (comparefn : A -> A -> number).

Fixpoint sort_insert (x : A) (l : list A) : list A :=
  match l with
  | [] => [x]
  | y :: l' => if gtb (comparefn x y) (num 0) then y :: sort_insert x l' else x :: l
  end.

Fixpoint Array_sort (l : list A) : list A :=
  match l with
  | [] => []
  | x :: l' => sort_insert x (Array_sort l')
  end.

End Array_sort.

(** The comparison [sort()] uses without a [comparefn]: strings by their
    code units (here bytes, the same order on ASCII text). *)
Definition default_compare (x y : string) : number :=
  if String.ltb x y then num (-1)
  else if String.ltb y x then num 1
  else num 0.

(** [new Array] holding [xs]: a location the heap does not use yet. *)
Definition alloc (xs : list string) : Async loc :=
  fun w =>
    let l := fresh (dom (heap w)) in
    (Return l, set_heap (<[l := xs]> (heap w)) w).

(** The array at [l].  A program holds no location the heap does not: such
    a read is stuck, and is reported as an error. *)
Definition read (l : loc) : Async (list string) :=
  fun w =>
    match heap w !! l with
    | Some xs => (Return xs, w)
    | None => (Throw (TypeError "not an array"), w)
    end.

Definition write (l : loc) (xs : list string) : Async unit :=
  fun w => (Return tt, set_heap (<[l := xs]> (heap w)) w).

(** ** class BinanceService *)

(** The fields read from the environment; a variable that is not set gives
    the empty string. *)
Record BinanceService := { apiKey : string; apiSecret : string }.

Definition baseURL : string := "https://api.binance.com".

Definition priceCacheDuration : Z := 1000.

(** What one turn of the retry loop ends with: [continue], or [return v]. *)
Inductive Step : Type :=
| Continue
| Returned (v : any).

(** [data.msg || fallback] *)
Definition msg_or (data : any) (fallback : string) : Async string :=
  match data with
  | undefined => throw (TypeError "Cannot read properties of undefined (reading 'msg')")
  | errorBody _ msg => ret (if String.eqb msg "" then fallback else msg)
  | _ => ret fallback
  end.

Definition is_network_code (code : option string) : bool :=
  match code with
  | Some c => String.eqb c "ECONNREFUSED" || String.eqb c "ETIMEDOUT" || String.eqb c "ENOTFOUND"
  | None => false
  end.

Section Service.
Context (this : BinanceService).

Definition createSignature (queryString : string) : string :=
  if String.eqb (apiSecret this) "" || String.eqb queryString "" then ""
  else Crypto.createHmac_sha256_hex (apiSecret this) queryString.

(** Lines 61-73 of [makeRequest].  [queryParams] is [Object.entries] of the
    argument, each value as the template literal prints it. *)
Definition fullQueryWithSignature (queryParams : list (string * string)) (timestamp : Z) : string :=
  let queryString :=
    if (0 <? Z.of_nat (length queryParams))
    then String.concat "&" (map (fun '(key, value) => key +:+ "=" +:+ value) queryParams)
    else "" in
  let finalQueryString :=
    if String.eqb queryString "" then "timestamp=" +:+ toString timestamp
    else queryString +:+ "&timestamp=" +:+ toString timestamp in
  let signature := createSignature finalQueryString in
  finalQueryString +:+ "&signature=" +:+ signature.

(** Lines 75-95: the one [config] object of a call. *)
Definition requestConfig (endpoint : string) (queryParams : list (string * string))
    (httpMethod : string) (timestamp : Z) : AxiosRequestConfig.t :=
  let full := fullQueryWithSignature queryParams timestamp in
  {| AxiosRequestConfig.method := httpMethod;
     AxiosRequestConfig.url :=
       if String.eqb httpMethod "GET" then baseURL +:+ endpoint +:+ "?" +:+ full
       else baseURL +:+ endpoint;
     AxiosRequestConfig.headers :=
       [("X-MBX-APIKEY", apiKey this); ("Content-Type", "application/x-www-form-urlencoded")];
     AxiosRequestConfig.data := if String.eqb httpMethod "GET" then None else Some full;
     AxiosRequestConfig.timeout := 30000;
     AxiosRequestConfig.validateStatus := fun status => status <? 500 |}.

(** The body of the [for] loop, lines 98-147. *)
Definition attempt_body (config : AxiosRequestConfig.t) (retries attempt : Z) : Async Step :=
  try_catch
    (response <- axios config ;;
     if 400 <=? AxiosResponse.status response then
       if AxiosResponse.status response =? 429 then
         do sleep (attempt * 2000) ;;
         ret Continue
       else
         msg <- msg_or (AxiosResponse.data response) (AxiosResponse.statusText response) ;;
         throw (Error ("API Error " +:+ toString (AxiosResponse.status response) +:+ ": " +:+ msg))
     else ret (Returned (AxiosResponse.data response)))
    (fun error =>
       match error with
       | AxiosErr e =>
           match AxiosError.response e with
           | Some r =>
               if (AxiosResponse.status r =? 429) && (attempt <? retries) then
                 do sleep (attempt * 2000) ;;
                 ret Continue
               else
                 msg <- msg_or (AxiosResponse.data r) (AxiosResponse.statusText r) ;;
                 throw (Error ("API Error: " +:+ msg))
           | None =>
               if is_network_code (AxiosError.code e) then
                 if attempt <? retries then
                   do sleep (attempt * 2000) ;;
                   ret Continue
                 else throw (Error ("Network Error: " +:+ AxiosError.message e))
               else if AxiosError.request e then
                 if attempt <? retries then
                   do sleep (attempt * 3000) ;;
                   ret Continue
                 else throw (Error ("Network Error: No response from server after "
                                    +:+ toString retries +:+ " attempts"))
               else throw error
           end
       | _ => throw error
       end).

(** [for (let attempt = 1; attempt <= retries; attempt++)], then the end of
    the function, which resolves with [undefined].  [fuel] bounds the turns;
    [makeRequest] gives as many as the loop can take. *)
Fixpoint attempts (config : AxiosRequestConfig.t) (retries : Z) (fuel : nat) (attempt : Z)
    : Async any :=
  match fuel with
  | O => ret undefined
  | S fuel' =>
      if attempt <=? retries then
        step <- attempt_body config retries attempt ;;
        match step with
        | Continue => attempts config retries fuel' (attempt + 1)
        | Returned v => ret v
        end
      else ret undefined
  end.

Definition makeRequest (endpoint : string) (queryParams : list (string * string))
    (httpMethod : string) (retries : Z) : Async any :=
  if String.eqb (apiKey this) "" || String.eqb (apiSecret this) "" then
    throw (Error "Missing BINANCE_API_KEY or BINANCE_SECRET_KEY environment variables")
  else
    timestamp <- Date_now ;;
    let config := requestConfig endpoint queryParams httpMethod timestamp in
    attempts config retries (Z.to_nat retries) 1.

Definition getAccountInfo : Async any :=
  makeRequest "/api/v3/account" [] "GET" 3.

(** [this.priceCache.get(cacheKey)] when it is there and younger than
    [priceCacheDuration]. *)
Definition cached_fresh (cacheKey : string) : Async (option any) :=
  fun w =>
    match priceCache w !! cacheKey with
    | Some cached =>
        if clock w - CacheEntry.timestamp cached <? priceCacheDuration
        then (Return (Some (CacheEntry.data cached)), w)
        else (Return None, w)
    | None => (Return None, w)
    end.

(** [this.priceCache.set(cacheKey, { data, timestamp: Date.now() })] *)
Definition cache_set (cacheKey : string) (data : any) : Async unit :=
  fun w =>
    (Return tt,
     set_priceCache
       (<[cacheKey := {| CacheEntry.data := data; CacheEntry.timestamp := clock w |}]> (priceCache w)) w).

Definition getAllPrices : Async any :=
  let cacheKey := "allPrices" in
  cached <- cached_fresh cacheKey ;;
  match cached with
  | Some data => ret data
  | None =>
      try_catch
        (response <- axios_get (baseURL +:+ "/api/v3/ticker/price") ;;
         let prices := AxiosResponse.data response in
         do cache_set cacheKey prices ;;
         ret prices)
        (fun error => throw error)
  end.

(** The [for (const symbol of symbols)] loop of [getSymbolPrices]. *)
Fixpoint fetchEach (symbols : list string) (prices : list any) : Async (list any) :=
  match symbols with
  | [] => ret prices
  | symbol :: rest =>
      prices' <- try_catch
                   (response <- axios_get (baseURL +:+ "/api/v3/ticker/price?symbol=" +:+ symbol) ;;
                    ret (prices ++ [AxiosResponse.data response]))
                   (fun error => ret prices) ;;
      fetchEach rest prices'
  end.

(** [symbols] is the caller's array: [symbols.sort()] sorts it where it is. *)
Definition getSymbolPrices (symbols : loc) : Async any :=
  elements <- read symbols ;;
  if (length elements =? 0)%nat then ret (array [])
  else
    let sorted := Array_sort default_compare elements in
    do write symbols sorted ;;
    let cacheKey := String.concat "," sorted in
    cached <- cached_fresh cacheKey ;;
    match cached with
    | Some data => ret data
    | None =>
        try_catch
          (prices <- fetchEach sorted [] ;;
           if (0 <? length prices)%nat then
             do cache_set cacheKey (array prices) ;;
             ret (array prices)
           else getAllPrices)
          (fun error => throw error)
    end.

(** Lines 219-225: the assets held, [free + locked > 0]. *)
Definition heldAssetsOf (balances : list AssetBalance) : list string :=
  map asset
    (List.filter
       (fun balance =>
          let free := or_else (parseFloat (free balance)) (num 0) in
          let locked := or_else (parseFloat (locked balance)) (num 0) in
          gtb (add free locked) (num 0))
       balances).

(** Line 230: the symbols asked for. *)
Definition symbolsOf (heldAssets : list string) : list string :=
  List.filter (fun symbol => negb (String.eqb symbol "USDTUSDT"))
    (map (fun asset => if String.eqb asset "USDT" then "USDTUSDT" else asset +:+ "USDT")
       heldAssets).

(** Lines 233-236: [prices.forEach(price => priceMap.set(price.symbol,
    parseFloat(price.price)))].  An element that is not a quote has no
    [symbol]: what it sets is the key [undefined], which no lookup below
    reads, so it is left out; reading [symbol] off [undefined] throws. *)
Fixpoint forEach_set (prices : list any) (priceMap : gmap string number)
    : Completion (gmap string number) :=
  match prices with
  | [] => Return priceMap
  | ofPriceData p :: rest => forEach_set rest (<[symbol p := parseFloat (price p)]> priceMap)
  | undefined :: _ => Throw (TypeError "Cannot read properties of undefined (reading 'symbol')")
  | _ :: rest => forEach_set rest priceMap
  end.

Definition Map_has (priceMap : gmap string number) (key : string) : bool :=
  match priceMap !! key with
  | Some _ => true
  | None => false
  end.

(** [priceMap.get(key)!]; a missing key gives [undefined], [NaN] in
    arithmetic. *)
Definition Map_get (priceMap : gmap string number) (key : string) : number :=
  match priceMap !! key with
  | Some v => v
  | None => NaN
  end.

(** Lines 247-266: [(usdtValue, currentPrice)] of a held asset. *)
Definition resolve (priceMap : gmap string number) (asset : string) (total : number)
    : number * option number :=
  if String.eqb asset "USDT" then (total, Some (num 1))
  else
    let usdtPair := asset +:+ "USDT" in
    let btcPair := asset +:+ "BTC" in
    if Map_has priceMap usdtPair then
      let currentPrice := Map_get priceMap usdtPair in
      (mul total currentPrice, Some currentPrice)
    else if Map_has priceMap btcPair && Map_has priceMap "BTCUSDT" then
      let btcPrice := Map_get priceMap btcPair in
      let btcUsdtPrice := Map_get priceMap "BTCUSDT" in
      let currentPrice := mul btcPrice btcUsdtPrice in
      (mul total currentPrice, Some currentPrice)
    else (num 0, None).

(** The materiality threshold, [0.01]. *)
Definition threshold : number := Fin (1 # 100).

(** Lines 241-281: one turn of the loop over the balances, on
    [(totalUSDT, assets)]. *)
Definition valuation_step (priceMap : gmap string number)
    (acc : number * list ParsedAsset.t) (balance : AssetBalance)
    : number * list ParsedAsset.t :=
  let free := or_else (parseFloat (free balance)) (num 0) in
  let locked := or_else (parseFloat (locked balance)) (num 0) in
  let total := add free locked in
  if gtb total (num 0) then
    let '(usdtValue, currentPrice) := resolve priceMap (asset balance) total in
    if gtb usdtValue threshold then
      (add (fst acc) usdtValue,
       snd acc ++ [ {| ParsedAsset.asset := asset balance;
                       ParsedAsset.free := free;
                       ParsedAsset.locked := locked;
                       ParsedAsset.total := total;
                       ParsedAsset.usdtValue := usdtValue;
                       ParsedAsset.type := "现货";
                       ParsedAsset.currentPrice := currentPrice |} ])
    else acc
  else acc.

(** Line 283: [(a, b) => b.usdtValue - a.usdtValue]. *)
Definition by_value_descending (a b : ParsedAsset.t) : number :=
  sub (ParsedAsset.usdtValue b) (ParsedAsset.usdtValue a).

(** Lines 238-283: [(totalUSDT, sortedAssets)]. *)
Definition valuate (balances : list AssetBalance) (priceMap : gmap string number)
    : number * list ParsedAsset.t :=
  let '(totalUSDT, assets) := fold_left (valuation_step priceMap) balances (num 0, []) in
  let sortedAssets := Array_sort by_value_descending assets in
  (totalUSDT, sortedAssets).

Definition calculateTotalAssets : Async PortfolioData :=
  info <- getAccountInfo ;;
  match info with
  | ofAccountInfo a =>
      let heldAssets := heldAssetsOf (balances a) in
      prices <- (if (0 <? length heldAssets)%nat && (length heldAssets <? 50)%nat then
                   symbols <- alloc (symbolsOf heldAssets) ;;
                   getSymbolPrices symbols
                 else getAllPrices) ;;
      match prices with
      | array ps =>
          match forEach_set ps ∅ with
          | Return priceMap =>
              let '(totalUSDT, sortedAssets) := valuate (balances a) priceMap in
              lastUpdated <- Date_now ;;
              ret {| totalUSDT := totalUSDT; assets := sortedAssets; lastUpdated := lastUpdated |}
          | Throw e => throw e
          end
      | _ => throw (TypeError "prices.forEach is not a function")
      end
  | undefined => throw (TypeError "Cannot read properties of undefined (reading 'balances')")
  | _ => throw (TypeError "Cannot read properties of undefined (reading 'filter')")
  end.

End Service.

(** ** Vocabulary of the statements *)

(** The world once [config] has been sent and answered. *)
Definition sent (config : AxiosRequestConfig.t) (w : World) : World :=
  set_clock (clock w + latency (exchange w (length (requests w)) config))
    (set_requests (requests w ++ [(clock w, config)]) w).

(** The body a request resolves with, when it resolves. *)
Definition success (config : AxiosRequestConfig.t) (reply : Reply) : option any :=
  match outcome reply with
  | Replied r =>
      if AxiosRequestConfig.validateStatus config (AxiosResponse.status r)
      then Some (AxiosResponse.data r) else None
  | Failed _ _ _ => None
  end.

Definition ticker_config (symbol : string) : AxiosRequestConfig.t :=
  get_config (baseURL +:+ "/api/v3/ticker/price?symbol=" +:+ symbol).

Definition all_prices_config : AxiosRequestConfig.t :=
  get_config (baseURL +:+ "/api/v3/ticker/price").

(** The quotes a batch obtains in [w]: the [i]-th symbol is asked for in the
    [i]-th request from now, and counts when that request resolves. *)
Definition answers (w : World) (symbols : list string) : list any :=
  omap id
    (imap (fun i symbol =>
             success (ticker_config symbol)
               (exchange w (length (requests w) + i)%nat (ticker_config symbol)))
       symbols).

(** The world after one request per symbol. *)
Definition fetched (w : World) (symbols : list string) : World :=
  fold_left (fun w symbol => sent (ticker_config symbol) w) symbols w.

(** The entry under [cacheKey] is absent, or as old as the cache duration. *)
Definition cache_miss (cacheKey : string) (w : World) : Prop :=
  forall cached, priceCache w !! cacheKey = Some cached ->
                 priceCacheDuration <= clock w - CacheEntry.timestamp cached.

(** The world of [getSymbolPrices] once [symbols.sort()] has run. *)
Definition sorted_in_place (symbols : loc) (elements : list string) (w : World) : World :=
  set_heap (<[symbols := Array_sort default_compare elements]> (heap w)) w.

(** An exchange that answers every request with HTTP 429. *)
Definition always_429 (w : World) : Prop :=
  forall n config, exists r,
    outcome (exchange w n config) = Replied r /\ AxiosResponse.status r = 429.

(** An exchange no request reaches: every connection is refused. *)
Definition always_refused (message : string) (w : World) : Prop :=
  forall n config, outcome (exchange w n config) = Failed (Some "ECONNREFUSED") message true.

Definition string_le (x y : string) : Prop := String.leb x y = true.

(** [total] of a balance, lines 242-244. *)
Definition totalOf (balance : AssetBalance) : number :=
  add (or_else (parseFloat (free balance)) (num 0))
      (or_else (parseFloat (locked balance)) (num 0)).

(** The object the loop builds for [balance], lines 269-277. *)
Definition parsedAsset (priceMap : gmap string number) (balance : AssetBalance) : ParsedAsset.t :=
  {| ParsedAsset.asset := asset balance;
     ParsedAsset.free := or_else (parseFloat (free balance)) (num 0);
     ParsedAsset.locked := or_else (parseFloat (locked balance)) (num 0);
     ParsedAsset.total := totalOf balance;
     ParsedAsset.usdtValue := fst (resolve priceMap (asset balance) (totalOf balance));
     ParsedAsset.type := "现货";
     ParsedAsset.currentPrice := snd (resolve priceMap (asset balance) (totalOf balance)) |}.

(** The two tests a balance passes to be pushed, lines 246 and 268. *)
Definition listed (priceMap : gmap string number) (balance : AssetBalance) : bool :=
  gtb (totalOf balance) (num 0)
  && gtb (ParsedAsset.usdtValue (parsedAsset priceMap balance)) threshold.


(** ** Concrete worlds, for the examples *)
Module Demo.

Definition service : BinanceService :=
  {| apiKey := "demo-key"; apiSecret := "demo-secret" |}.

Definition unconfigured : BinanceService :=
  {| apiKey := "demo-key"; apiSecret := "" |}.

Definition http (status : Z) (statusText : string) (data : any) : Reply :=
  {| outcome := Replied {| AxiosResponse.status := status;
                           AxiosResponse.statusText := statusText;
                           AxiosResponse.data := data |};
     latency := 5 |}.

Definition too_many : Reply :=
  http 429 "Too Many Requests" (errorBody (-1003) "Too many requests.").

Definition bad_symbol : Reply :=
  http 400 "Bad Request" (errorBody (-1121) "Invalid symbol.").

Definition quote (symbol price : string) : any :=
  ofPriceData {| symbol := symbol; price := price |}.

Definition account : any :=
  ofAccountInfo {| balances := [ {| asset := "USDT"; free := "100"; locked := "0" |};
                                 {| asset := "BTC"; free := "1"; locked := "0" |} ] |}.

Definition snapshot : any :=
  array [quote "BTCUSDT" "50000.00000000"; quote "ETHUSDT" "3000.00"].

Definition T : Z := 1700000000000.

Definition world (exchange : nat -> AxiosRequestConfig.t -> Reply) : World :=
  {| clock := T; exchange := exchange; requests := []; priceCache := ∅; heap := ∅ |}.

(** Every request is answered 429. *)
Definition rate_limited : World := world (fun _ _ => too_many).

(** The first request is answered 429, the next ones with the account. *)
Definition limited_once : World :=
  world (fun n _ => match n with O => too_many | S _ => http 200 "OK" account end).

(** An exchange that knows the account, BTCUSDT and the full snapshot. *)
Definition market (n : nat) (config : AxiosRequestConfig.t) : Reply :=
  let url := AxiosRequestConfig.url config in
  if String.prefix (baseURL +:+ "/api/v3/account?") url then http 200 "OK" account
  else if String.eqb url (baseURL +:+ "/api/v3/ticker/price?symbol=BTCUSDT")
  then http 200 "OK" (quote "BTCUSDT" "50000.00000000")
  else if String.eqb url (baseURL +:+ "/api/v3/ticker/price") then http 200 "OK" snapshot
  else bad_symbol.

Definition open_market : World := world market.

(** Nothing listens. *)
Definition unreachable : World :=
  world (fun _ _ => {| outcome := Failed (Some "ECONNREFUSED") "connect ECONNREFUSED" true;
                       latency := 1 |}).

(** [w] with the array [elements] at location 1. *)
Definition with_array (elements : list string) (w : World) : World :=
  set_heap (<[1%positive := elements]> (heap w)) w.

(** [w] with [data] cached under [cacheKey] at time [t]. *)
Definition cached_at (cacheKey : string) (data : any) (t : Z) (w : World) : World :=
  set_priceCache
    (<[cacheKey := {| CacheEntry.data := data; CacheEntry.timestamp := t |}]> (priceCache w)) w.

Definition stale_snapshot : any := array [quote "BTCUSDT" "49000.00"].

(** XYZ is quoted against BTC only. *)
Definition bridge_prices : gmap string number :=
  <["BTCUSDT" := parseFloat "50000"]> (<["XYZBTC" := parseFloat "0.01"]> ∅).

Definition xyz : AssetBalance := {| asset := "XYZ"; free := "2"; locked := "0" |}.

(** DUST is worth 0.005, and NOPE has no quote at all. *)
Definition dust_prices : gmap string number := <["DUSTUSDT" := parseFloat "1"]> ∅.

Definition dust : AssetBalance := {| asset := "DUST"; free := "0.005"; locked := "0" |}.

Definition nope : AssetBalance := {| asset := "NOPE"; free := "3"; locked := "1" |}.

End Demo.

(** ** The routes of index.ts

    Strings of the routes are ASCII text: [toUpperCase] and [toLowerCase]
    map the letters a-z and A-Z and leave every other byte as it is. *)

Definition upper_char (c : ascii) : ascii :=
  let n := N_of_ascii c in
  if ((97 <=? n) && (n <=? 122))%N then ascii_of_N (n - 32) else c.

Definition lower_char (c : ascii) : ascii :=
  let n := N_of_ascii c in
  if ((65 <=? n) && (n <=? 90))%N then ascii_of_N (n + 32) else c.

Fixpoint toUpperCase (s : string) : string :=
  match s with
  | EmptyString => EmptyString
  | String c s' => String (upper_char c) (toUpperCase s')
  end.

Fixpoint toLowerCase (s : string) : string :=
  match s with
  | EmptyString => EmptyString
  | String c s' => String (lower_char c) (toLowerCase s')
  end.

Fixpoint drop_chars (n : nat) (s : string) : string :=
  match n, s with
  | O, _ => s
  | S n', String _ s' => drop_chars n' s'
  | S _, EmptyString => EmptyString
  end.

(** [s.replace(pattern, replacement)] with a string pattern: the first
    occurrence only. *)
Fixpoint replace (pattern replacement s : string) : string :=
  if String.prefix pattern s then replacement +:+ drop_chars (String.length pattern) s
  else match s with
       | EmptyString => EmptyString
       | String c s' => String c (replace pattern replacement s')
       end.


(** [error.message] *)
Definition message_of (error : Thrown) : string :=
  match error with
  | AxiosErr e => AxiosError.message e
  | Error message => message
  | TypeError message => message
  end.

Module TokenPrice.
Record t := { token : string; price : number }.
End TokenPrice.

Module Holding.
Record t := { token : string; type : string; amount : number }.
End Holding.

(** What a route answers with [res.status(..).json(..)]. *)
Inductive Json : Type :=
| tokens_required       (* { error: 'Please provide a tokens array', example: { tokens: ['ada', 'bnb'] } } *)
| failure (error message : string)
| token_prices (result : list TokenPrice.t)
| holdings (result : list Holding.t).

Record ServerResponse := { statusCode : Z; body : Json }.

(** Lines 358-361: the symbols asked for the tokens. *)
Definition symbolsOfTokens (tokens : list string) : list string :=
  List.filter (fun symbol => negb (String.eqb symbol "USDTUSDT"))
    (map (fun token =>
            let upperToken := toUpperCase token in
            if String.eqb upperToken "USDT" then "USDTUSDT" else upperToken +:+ "USDT")
       tokens).

(** Lines 367-370: one row of the answer. *)
Definition tokenPrice (p : PriceData) : TokenPrice.t :=
  {| TokenPrice.token := toLowerCase (replace "USDT" "" (symbol p));
     TokenPrice.price := parseFloat (price p) |}.

(** [prices.map(price => ...)] on what [getSymbolPrices] returned: a value
    that is no array has no [map], and an element that is no quote has no
    [symbol] to call [replace] on. *)
Fixpoint tokenPrices (prices : list any) : Completion (list TokenPrice.t) :=
  match prices with
  | [] => Return []
  | ofPriceData p :: rest =>
      match tokenPrices rest with
      | Return rows => Return (tokenPrice p :: rows)
      | Throw e => Throw e
      end
  | undefined :: _ => Throw (TypeError "Cannot read properties of undefined (reading 'symbol')")
  | _ :: _ => Throw (TypeError "Cannot read properties of undefined (reading 'replace')")
  end.

(** [POST /api/token-prices], lines 347-382, on a body that [express.json()]
    parsed to an object.  [tokens] is [req.body.tokens]: [None] when it is
    absent, falsy or no array, and the elements of the array, all of them
    strings, otherwise. *)
Definition post_token_prices (tokens : option (list string)) : Async ServerResponse :=
  try_catch
    (match tokens with
     | None | Some [] => ret {| statusCode := 400; body := tokens_required |}
     | Some tokens =>
         symbols <- alloc (symbolsOfTokens tokens) ;;
         prices <- getSymbolPrices symbols ;;
         match prices with
         | array ps =>
             match tokenPrices ps with
             | Return result => ret {| statusCode := 200; body := token_prices result |}
             | Throw e => throw e
             end
         | undefined => throw (TypeError "Cannot read properties of undefined (reading 'map')")
         | _ => throw (TypeError "prices.map is not a function")
         end
     end)
    (fun error =>
       ret {| statusCode := 500;
              body := failure "Failed to get prices" (message_of error) |}).

(** Lines 391-395: one row of the holdings. *)
Definition holding (a : ParsedAsset.t) : Holding.t :=
  {| Holding.token := toLowerCase (ParsedAsset.asset a);
     Holding.type := ParsedAsset.type a;
     Holding.amount := ParsedAsset.total a |}.

(** [GET /api/holdings], lines 385-407, on the service [this]. *)
Definition get_holdings (this : BinanceService) : Async ServerResponse :=
  try_catch
    (portfolio <- calculateTotalAssets this ;;
     ret {| statusCode := 200; body := holdings (map holding (assets portfolio)) |})
    (fun error =>
       ret {| statusCode := 500;
              body := failure "Failed to get holdings" (message_of error) |}).

(** ** More vocabulary *)

(** An exchange that never answers: the request leaves, nothing comes back,
    and the failure has none of the three network codes. *)
Definition always_silent (message : string) (w : World) : Prop :=
  forall n config, exists code,
    outcome (exchange w n config) = Failed code message true
    /\ is_network_code code = false.

(** No answer of the exchange takes a negative time. *)
Definition latencies_nonnegative (w : World) : Prop :=
  forall n config, 0 <= latency (exchange w n config).

(** Concrete inputs for the further properties. *)
Module Cases.

(** The exchange hangs up on every request. *)
Definition silent : World :=
  Demo.world (fun _ _ => {| outcome := Failed (Some "ECONNABORTED") "timeout of 30000ms exceeded" true;
                            latency := 30000 |}).

(** Two 429 answers, then the account. *)
Definition limited_twice : World :=
  Demo.world (fun n _ => match n with
                         | O | S O => Demo.too_many
                         | _ => Demo.http 200 "OK" Demo.account
                         end).

(** The exchange is down: 503 on every request. *)
Definition down : World :=
  Demo.world (fun _ _ => Demo.http 503 "Service Unavailable" (errorBody (-1001) "Internal error.")).

(** An account that holds USDT only. *)
Definition savings : any :=
  ofAccountInfo {| balances := [ {| asset := "USDT"; free := "250.5"; locked := "0" |};
                                 {| asset := "BTC"; free := "0.00000000"; locked := "0.00000000" |} ] |}.

Definition savings_bank : World :=
  Demo.world (fun _ _ => Demo.http 200 "OK" savings).

(** An account that holds nothing. *)
Definition empty_account : any :=
  ofAccountInfo {| balances := [ {| asset := "BTC"; free := "0.00000000"; locked := "0.00000000" |} ] |}.

Definition empty_bank : World :=
  Demo.world (fun _ config =>
                if String.prefix (baseURL +:+ "/api/v3/account?") (AxiosRequestConfig.url config)
                then Demo.http 200 "OK" empty_account
                else Demo.http 200 "OK" Demo.snapshot).

(** Strings that are no numbers: the locked amount of BTC and the price of
    ETHUSDT. *)
Definition garbled_account : any :=
  ofAccountInfo {| balances := [ {| asset := "BTC"; free := "1"; locked := "n/a" |};
                                 {| asset := "ETH"; free := "2"; locked := "0" |};
                                 {| asset := "USDT"; free := "100"; locked := "0" |} ] |}.

Definition garbled_bank : World :=
  Demo.world (fun _ config =>
                let url := AxiosRequestConfig.url config in
                if String.prefix (baseURL +:+ "/api/v3/account?") url
                then Demo.http 200 "OK" garbled_account
                else if String.eqb url (baseURL +:+ "/api/v3/ticker/price?symbol=ETHUSDT")
                then Demo.http 200 "OK" (Demo.quote "ETHUSDT" "oops")
                else Demo.bad_symbol).

End Cases.

(** * Checks of the primitives *)

Example sha256_constants :
  hd 0 Crypto.K = 0x428a2f98 /\ List.last Crypto.K 0 = 0xc67178f2 /\ length Crypto.K = 64%nat
  /\ hd 0 Crypto.H0 = 0x6a09e667 /\ List.last Crypto.H0 0 = 0x5be0cd19.
Proof. repeat split; reflexivity. Qed.

Example sha256_abc :
  Crypto.hex (Crypto.sha256 (Crypto.bytes_of_string "abc"))
  = "ba7816bf8f01cfea414140de5dae2223b00361a396177a9cb410ff61f20015ad".
Proof. vm_compute. reflexivity. Qed.

Example sha256_empty :
  Crypto.hex (Crypto.sha256 [])
  = "e3b0c44298fc1c149afbf4c8996fb92427ae41e4649b934ca495991b7852b855".
Proof. vm_compute. reflexivity. Qed.

(** RFC 4231, test case 2. *)
Example hmac_rfc4231_2 :
  Crypto.createHmac_sha256_hex "Jefe" "what do ya want for nothing?"
  = "5bdcc146bf60754e6a042426089575c75a003f089d2739839dec58b964ec3843".
Proof. vm_compute. reflexivity. Qed.

(** A key longer than a block is hashed first; the message spans blocks. *)
Example hmac_long_key :
  Crypto.createHmac_sha256_hex (String.concat "" (repeat "k" 100)) (String.concat "" (repeat "m" 200))
  = "a6bca6f4482167eeffadc0449a346c21ffe8f96177eceecaeb182b610f6128c8".
Proof. vm_compute. reflexivity. Qed.

Example parseFloat_price : parseFloat "50000.00000000" = num 50000.
Proof. reflexivity. Qed.

Example parseFloat_cent : parseFloat "0.01" = Fin (1 # 100).
Proof. reflexivity. Qed.

Example parseFloat_prefix : parseFloat "  -2.5e1xyz" = num (-25).
Proof. reflexivity. Qed.

Example parseFloat_dot :
  parseFloat ".5" = Fin (1 # 2) /\ parseFloat "5." = num 5 /\ parseFloat "." = NaN.
Proof. repeat split; reflexivity. Qed.

Example parseFloat_nan :
  parseFloat "abc" = NaN /\ parseFloat "" = NaN /\ parseFloat "e5" = NaN.
Proof. repeat split; reflexivity. Qed.

Example parseFloat_bare_exponent : parseFloat "7e" = num 7 /\ parseFloat "7e+" = num 7.
Proof. repeat split; reflexivity. Qed.

Example parseFloat_infinity : parseFloat "-Infinity" = Infinity true.
Proof. reflexivity. Qed.

Example or_else_nan : or_else (parseFloat "n/a") (num 0) = num 0.
Proof. reflexivity. Qed.

Example sort_symbols :
  Array_sort default_compare ["ETHUSDT"; "BTCUSDT"; "ADAUSDT"] = ["ADAUSDT"; "BTCUSDT"; "ETHUSDT"].
Proof. reflexivity. Qed.

(** * Strings *)

Lemma eqb_empty_false s : s <> "" -> String.eqb s "" = false.
Proof. intros H. apply String.eqb_neq. exact H. Qed.

Lemma append_nonempty_l s1 s2 : s1 <> "" -> s1 +:+ s2 <> "".
Proof. intros H E. apply H. destruct s1; [reflexivity | discriminate E]. Qed.

Lemma append_nonempty_r s1 s2 : s2 <> "" -> s1 +:+ s2 <> "".
Proof. intros H E. destruct s1; simpl in E; [auto | discriminate]. Qed.

Lemma concat_nonempty sep s l : s <> "" -> String.concat sep (s :: l) <> "".
Proof.
  intros H. simpl. destruct l; [exact H |]. apply append_nonempty_l. exact H.
Qed.

Lemma ascii_compare_lt_trans a b c :
  Ascii.compare a b = Lt -> Ascii.compare b c = Lt -> Ascii.compare a c = Lt.
Proof.
  unfold Ascii.compare. rewrite !N.compare_lt_iff. apply N.lt_trans.
Qed.

Lemma string_compare_lt_trans x :
  forall y z, String.compare x y = Lt -> String.compare y z = Lt -> String.compare x z = Lt.
Proof.
  induction x as [| a x IH]; intros [| b y] [| c z]; simpl; try congruence.
  destruct (Ascii.compare a b) eqn:Hab; try discriminate;
    destruct (Ascii.compare b c) eqn:Hbc; try discriminate; intros H1 H2.
  - apply Ascii.compare_eq_iff in Hab, Hbc. subst.
    replace (Ascii.compare c c) with Eq
      by (symmetry; unfold Ascii.compare; apply N.compare_refl).
    eapply IH; eassumption.
  - apply Ascii.compare_eq_iff in Hab. subst. rewrite Hbc. reflexivity.
  - apply Ascii.compare_eq_iff in Hbc. subst. rewrite Hab. reflexivity.
  - rewrite (ascii_compare_lt_trans _ _ _ Hab Hbc). reflexivity.
Qed.

Lemma string_le_trans : Relations_1.Transitive string_le.
Proof.
  intros x y z. unfold string_le, String.leb.
  destruct (String.compare x y) eqn:Hxy; try discriminate;
    destruct (String.compare y z) eqn:Hyz; try discriminate; intros _ _.
  - apply String.compare_eq_iff in Hxy. subst. rewrite Hyz. reflexivity.
  - apply String.compare_eq_iff in Hxy. subst. rewrite Hyz. reflexivity.
  - apply String.compare_eq_iff in Hyz. subst. rewrite Hxy. reflexivity.
  - rewrite (string_compare_lt_trans _ _ _ Hxy Hyz). reflexivity.
Qed.

(** * Arithmetic and order of [number] *)






Lemma ltb_Fin p q : ltb (Fin p) (Fin q) = true <-> (p < q)%Q.
Proof.
  unfold ltb. rewrite Qlt_alt. destruct (p ?= q)%Q; split; congruence.
Qed.

Lemma geb_Fin p q : geb (Fin p) (Fin q) = true <-> (q <= p)%Q.
Proof.
  unfold geb, ltb. rewrite Qge_alt. destruct (p ?= q)%Q; simpl; split; congruence.
Qed.

Ltac number_cases := unfold geb, gtb, ltb, sub, neg, add; simpl; congruence.




Lemma material_not_NaN v : gtb v threshold = true -> v <> NaN.
Proof. intros H E. subst v. discriminate H. Qed.

Lemma zero_not_material : gtb (num 0) threshold = false.
Proof. reflexivity. Qed.

(** * [Array.prototype.sort] *)

Section Sorting.
Context {A : Type} (comparefn : A -> A -> number).

Lemma sort_insert_permutation x l : Permutation (sort_insert comparefn x l) (x :: l).
Proof.
  induction l as [| y l IH]; cbn [sort_insert].
  - reflexivity.
  - destruct (gtb (comparefn x y) (num 0)).
    + eapply Permutation_trans; [apply perm_skip; exact IH | apply perm_swap].
    + reflexivity.
Qed.

Lemma Array_sort_permutation l : Permutation (Array_sort comparefn l) l.
Proof.
  induction l as [| x l IH]; cbn [Array_sort].
  - reflexivity.
  - eapply Permutation_trans; [apply sort_insert_permutation | apply perm_skip; exact IH].
Qed.

(** [P] delimits the elements on which [comparefn] agrees with the order [R]. *)
Context (P : A -> Prop) (R : A -> A -> Prop).
Hypothesis after : forall x y, P x -> P y -> gtb (comparefn x y) (num 0) = true -> R y x.
Hypothesis before : forall x y, P x -> P y -> gtb (comparefn x y) (num 0) = false -> R x y.

Lemma sort_insert_HdRel a x l :
  R a x -> HdRel R a l -> HdRel R a (sort_insert comparefn x l).
Proof.
  intros Hax Hl. destruct l as [| y l]; cbn [sort_insert].
  - constructor. exact Hax.
  - destruct (gtb (comparefn x y) (num 0)); constructor.
    + inversion Hl; assumption.
    + exact Hax.
Qed.

Lemma sort_insert_sorted x l :
  P x -> Forall P l -> Sorted R l -> Sorted R (sort_insert comparefn x l).
Proof.
  intros Hx. induction l as [| y l IH]; intros HP Hs; cbn [sort_insert].
  - repeat constructor.
  - inversion HP as [| ? ? Hy HPl]; subst. inversion Hs as [| ? ? Hsl Hhd]; subst.
    destruct (gtb (comparefn x y) (num 0)) eqn:E.
    + constructor.
      * apply IH; assumption.
      * apply sort_insert_HdRel; [apply after; assumption | assumption].
    + constructor; [assumption |]. constructor. apply before; assumption.
Qed.

Lemma Array_sort_sorted l : Forall P l -> Sorted R (Array_sort comparefn l).
Proof.
  induction l as [| x l IH]; intros HP; cbn [Array_sort].
  - constructor.
  - inversion HP; subst. apply sort_insert_sorted.
    + assumption.
    + eapply Permutation_Forall; [symmetry; apply Array_sort_permutation | assumption].
    + apply IH. assumption.
Qed.

End Sorting.

Lemma default_compare_after x y :
  gtb (default_compare x y) (num 0) = true -> string_le y x.
Proof.
  unfold default_compare, string_le, String.ltb, String.leb.
  destruct (String.compare x y) eqn:Hxy; try discriminate;
    destruct (String.compare y x) eqn:Hyx; try discriminate; reflexivity.
Qed.

Lemma default_compare_before x y :
  gtb (default_compare x y) (num 0) = false -> string_le x y.
Proof.
  unfold default_compare, string_le, String.ltb, String.leb.
  rewrite (String.compare_antisym x y).
  destruct (String.compare y x) eqn:Hyx; simpl; try discriminate; reflexivity.
Qed.

Lemma sort_strings_sorted l : StronglySorted string_le (Array_sort default_compare l).
Proof.
  apply Sorted_StronglySorted; [exact string_le_trans |].
  apply (Array_sort_sorted default_compare (fun _ => True)).
  - intros x y _ _. apply default_compare_after.
  - intros x y _ _. apply default_compare_before.
  - apply List.Forall_forall. auto.
Qed.

(** * Requests *)

Lemma axios_world config w : snd (axios config w) = sent config w.
Proof.
  unfold axios, sent.
  destruct (outcome _) as [r | c m rq];
    [destruct (AxiosRequestConfig.validateStatus _ _) |]; reflexivity.
Qed.

Lemma axios_success config w d :
  success config (exchange w (length (requests w)) config) = Some d ->
  exists r, axios config w = (Return r, sent config w) /\ AxiosResponse.data r = d.
Proof.
  unfold success, axios, sent.
  destruct (outcome _) as [r | c m rq]; [| discriminate].
  destruct (AxiosRequestConfig.validateStatus config (AxiosResponse.status r)); [| discriminate].
  intros [= <-]. exists r. auto.
Qed.

Lemma axios_failure config w :
  success config (exchange w (length (requests w)) config) = None ->
  exists e, axios config w = (Throw e, sent config w).
Proof.
  unfold success, axios, sent.
  destruct (outcome _) as [r | c m rq].
  - destruct (AxiosRequestConfig.validateStatus config (AxiosResponse.status r)); [discriminate |].
    intros _. eexists. reflexivity.
  - intros _. eexists. reflexivity.
Qed.

(** * [makeRequest]: credentials and signature *)

Lemma credentials_guard this :
  apiKey this <> "" -> apiSecret this <> "" ->
  String.eqb (apiKey this) "" || String.eqb (apiSecret this) "" = false.
Proof. intros Hk Hs. rewrite !eqb_empty_false by assumption. reflexivity. Qed.

Lemma credentials_guard_missing this :
  apiKey this = "" \/ apiSecret this = "" ->
  String.eqb (apiKey this) "" || String.eqb (apiSecret this) "" = true.
Proof.
  intros [H | H]; rewrite H; simpl; [reflexivity | apply orb_true_r].
Qed.

(** C9.  When the API key or the API secret is absent (the empty string),
    [makeRequest], and with it [getAccountInfo] and [calculateTotalAssets],
    throws the configuration error at once: the world it leaves is the world
    it found, so no request was sent, no wait was made and no attempt was
    repeated. *)
Theorem missing_credentials_fail_fast this endpoint queryParams httpMethod retries w :
  apiKey this = "" \/ apiSecret this = "" ->
  makeRequest this endpoint queryParams httpMethod retries w
  = (Throw (Error "Missing BINANCE_API_KEY or BINANCE_SECRET_KEY environment variables"), w)
  /\ getAccountInfo this w
     = (Throw (Error "Missing BINANCE_API_KEY or BINANCE_SECRET_KEY environment variables"), w)
  /\ calculateTotalAssets this w
     = (Throw (Error "Missing BINANCE_API_KEY or BINANCE_SECRET_KEY environment variables"), w).
Proof.
  intros H. apply credentials_guard_missing in H.
  assert (Hm : forall e q m r, makeRequest this e q m r w
     = (Throw (Error "Missing BINANCE_API_KEY or BINANCE_SECRET_KEY environment variables"), w)).
  { intros. unfold makeRequest. rewrite H. reflexivity. }
  split; [apply Hm |]. split.
  - apply Hm.
  - unfold calculateTotalAssets, bind, getAccountInfo. rewrite Hm. reflexivity.
Qed.

Lemma missing_credentials_witness :
  makeRequest Demo.unconfigured "/api/v3/order" [("symbol", "BTCUSDT")] "POST" 5 Demo.open_market
  = (Throw (Error "Missing BINANCE_API_KEY or BINANCE_SECRET_KEY environment variables"),
     Demo.open_market)
  /\ getAccountInfo Demo.unconfigured Demo.open_market
     = (Throw (Error "Missing BINANCE_API_KEY or BINANCE_SECRET_KEY environment variables"),
        Demo.open_market)
  /\ calculateTotalAssets Demo.unconfigured Demo.open_market
     = (Throw (Error "Missing BINANCE_API_KEY or BINANCE_SECRET_KEY environment variables"),
        Demo.open_market).
Proof.
  apply (missing_credentials_fail_fast Demo.unconfigured).
  right. reflexivity.
Defined.

(** C3.  With a secret and at least one parameter, the query that is sent is
    [signed], the [key=value] pairs joined by [&] in the order of the entries
    and followed by [&timestamp=<timestamp>], then [&signature=] and the hex
    HMAC-SHA256 of exactly [signed] under the API secret: the signature is
    appended after signing and is no part of what is signed.  A GET carries
    it in the URL, another method in the body. *)
Theorem signature_covers_parameters_and_timestamp this endpoint queryParams timestamp :
  apiSecret this <> "" ->
  queryParams <> [] ->
  let parameters :=
    String.concat "&" (map (fun '(key, value) => key +:+ "=" +:+ value) queryParams) in
  let signed := parameters +:+ "&timestamp=" +:+ toString timestamp in
  let signature := Crypto.createHmac_sha256_hex (apiSecret this) signed in
  fullQueryWithSignature this queryParams timestamp = signed +:+ "&signature=" +:+ signature
  /\ AxiosRequestConfig.url (requestConfig this endpoint queryParams "GET" timestamp)
     = baseURL +:+ endpoint +:+ "?" +:+ signed +:+ "&signature=" +:+ signature
  /\ AxiosRequestConfig.data (requestConfig this endpoint queryParams "POST" timestamp)
     = Some (signed +:+ "&signature=" +:+ signature).
Proof.
  intros Hsecret Hparams parameters signed signature.
  assert (Hfull : fullQueryWithSignature this queryParams timestamp
                  = signed +:+ "&signature=" +:+ signature).
  { unfold fullQueryWithSignature.
    destruct queryParams as [| [key value] rest]; [congruence |].
    assert (Hq : parameters <> "").
    { subst parameters. cbn [map]. apply concat_nonempty.
      apply append_nonempty_r. apply append_nonempty_l. discriminate. }
    replace (0 <? Z.of_nat (length ((key, value) :: rest))) with true
      by (symmetry; apply Z.ltb_lt; cbn [length]; lia).
    fold parameters. rewrite (eqb_empty_false parameters Hq). fold signed.
    unfold createSignature. rewrite (eqb_empty_false _ Hsecret).
    rewrite (eqb_empty_false signed); [reflexivity |].
    subst signed. apply append_nonempty_l. exact Hq. }
  unfold requestConfig. cbn. rewrite Hfull. auto.
Qed.

Lemma signature_witness :
  fullQueryWithSignature Demo.service [("symbol", "BTCUSDT"); ("recvWindow", "5000")] Demo.T
  = "symbol=BTCUSDT&recvWindow=5000&timestamp=1700000000000&signature=f9e237824a15c31d596c6c0d77cc11e08eb01650b6b82d20c11956b45569db7d"
  /\ AxiosRequestConfig.url
       (requestConfig Demo.service "/api/v3/order"
          [("symbol", "BTCUSDT"); ("recvWindow", "5000")] "GET" Demo.T)
     = "https://api.binance.com/api/v3/order?symbol=BTCUSDT&recvWindow=5000&timestamp=1700000000000&signature=f9e237824a15c31d596c6c0d77cc11e08eb01650b6b82d20c11956b45569db7d"
  /\ AxiosRequestConfig.data
       (requestConfig Demo.service "/api/v3/order"
          [("symbol", "BTCUSDT"); ("recvWindow", "5000")] "POST" Demo.T)
     = Some "symbol=BTCUSDT&recvWindow=5000&timestamp=1700000000000&signature=f9e237824a15c31d596c6c0d77cc11e08eb01650b6b82d20c11956b45569db7d".
Proof.
  destruct (signature_covers_parameters_and_timestamp Demo.service "/api/v3/order"
              [("symbol", "BTCUSDT"); ("recvWindow", "5000")] Demo.T)
    as (Hquery & Hurl & Hdata); [discriminate | discriminate |].
  split; [| split].
  - etransitivity; [exact Hquery | vm_compute; reflexivity].
  - etransitivity; [exact Hurl | vm_compute; reflexivity].
  - etransitivity; [exact Hdata | vm_compute; reflexivity].
Defined.

(** Without parameters the signed string is the timestamp alone. *)
Example signature_of_account_request :
  fullQueryWithSignature Demo.service [] Demo.T
  = "timestamp=1700000000000&signature=f7b2dea359f7329ee91bf4116307859c8016b7c45687f42e4cb6288b2422e3a9".
Proof. vm_compute. reflexivity. Qed.

(** * [makeRequest]: the retry loop *)

(** Every turn of the loop sends [config] once, and touches neither the
    cache nor the heap. *)
Lemma attempt_body_requests config retries attempt w :
  requests (snd (attempt_body config retries attempt w)) = requests w ++ [(clock w, config)]
  /\ exchange (snd (attempt_body config retries attempt w)) = exchange w.
Proof.
  unfold attempt_body, try_catch, bind.
  pose proof (axios_world config w) as Hw.
  destruct (axios config w) as [[response | error] w1]; simpl in Hw; subst w1.
  - destruct (400 <=? AxiosResponse.status response).
    + destruct (AxiosResponse.status response =? 429).
      * simpl. auto.
      * unfold msg_or.
        destruct (AxiosResponse.data response); simpl; auto.
    + simpl. auto.
  - destruct error as [e | m | m]; simpl; auto.
    destruct (AxiosError.response e) as [r |].
    + destruct ((AxiosResponse.status r =? 429) && (attempt <? retries)).
      * simpl. auto.
      * unfold msg_or. destruct (AxiosResponse.data r); simpl; auto.
    + destruct (is_network_code (AxiosError.code e)).
      * destruct (attempt <? retries); simpl; auto.
      * destruct (AxiosError.request e); [destruct (attempt <? retries) |]; simpl; auto.
Qed.

(** The requests a run of the loop adds are copies of [config], at most one
    per turn. *)
Lemma attempts_requests config retries fuel :
  forall attempt w,
    exists times,
      requests (snd (attempts config retries fuel attempt w))
      = requests w ++ map (fun t => (t, config)) times
      /\ (length times <= fuel)%nat.
Proof.
  induction fuel as [| fuel IH]; intros attempt w; simpl.
  - exists []. rewrite app_nil_r. split; [reflexivity | simpl; lia].
  - destruct (attempt <=? retries).
    + unfold bind.
      destruct (attempt_body_requests config retries attempt w) as (Hr & _).
      destruct (attempt_body config retries attempt w) as [[[| v] | e] w1]; simpl in Hr.
      * destruct (IH (attempt + 1) w1) as (times & Ht & Hl).
        exists (clock w :: times). rewrite Ht, Hr, <- app_assoc. simpl. split; [reflexivity | lia].
      * exists [clock w]. simpl. split; [exact Hr | lia].
      * exists [clock w]. simpl. split; [exact Hr | lia].
    + exists []. simpl. rewrite app_nil_r. split; [reflexivity | lia].
Qed.

(** The fuel [makeRequest] gives is never what stops the loop: any fuel that
    covers the turns left gives the same run. *)
Lemma attempts_fuel config retries fuel :
  forall fuel' attempt w,
    retries - attempt + 1 <= Z.of_nat fuel ->
    retries - attempt + 1 <= Z.of_nat fuel' ->
    attempts config retries fuel attempt w = attempts config retries fuel' attempt w.
Proof.
  induction fuel as [| fuel IH]; intros [| fuel'] attempt w H1 H2; cbn [attempts].
  - reflexivity.
  - replace (attempt <=? retries) with false by (symmetry; apply Z.leb_gt; lia). reflexivity.
  - replace (attempt <=? retries) with false by (symmetry; apply Z.leb_gt; lia). reflexivity.
  - destruct (attempt <=? retries); [| reflexivity].
    unfold bind. destruct (attempt_body config retries attempt w) as [[[| v] | e] w1];
      try reflexivity.
    apply IH; lia.
Qed.

Lemma makeRequest_fuel_suffices config retries extra w :
  attempts config retries (Z.to_nat retries + extra) 1 w
  = attempts config retries (Z.to_nat retries) 1 w.
Proof. apply attempts_fuel; lia. Qed.

(** C2, as the code has it.  Every attempt of a call of [makeRequest], the
    first and each retry alike, sends one and the same request: the one
    built before the loop, with the timestamp captured on entry and the
    signature over it.  There are at most [retries] attempts. *)
Theorem every_attempt_sends_the_same_request this endpoint queryParams httpMethod retries w :
  exists times,
    requests (snd (makeRequest this endpoint queryParams httpMethod retries w))
    = requests w
      ++ map (fun t => (t, requestConfig this endpoint queryParams httpMethod (clock w))) times
    /\ Z.of_nat (length times) <= Z.max 0 retries.
Proof.
  unfold makeRequest.
  destruct (String.eqb (apiKey this) "" || String.eqb (apiSecret this) "").
  - exists []. simpl. rewrite app_nil_r. split; [reflexivity | lia].
  - unfold bind, Date_now.
    destruct (attempts_requests (requestConfig this endpoint queryParams httpMethod (clock w))
                retries (Z.to_nat retries) 1 w) as (times & Ht & Hl).
    exists times. split; [exact Ht | lia].
Qed.

(** C2, as the spec has it, fails.  The exchange answers 429 once: the retry
    leaves 2005 ms after the first attempt and carries the very request of
    the first attempt, whose timestamp and signature are those of the first
    attempt and not ones taken for the retry. *)
Lemma retry_replays_timestamp_and_signature :
  exists config,
    requests (snd (makeRequest Demo.service "/api/v3/account" [] "GET" 3 Demo.limited_once))
    = [(Demo.T, config); (Demo.T + 2005, config)]
    /\ AxiosRequestConfig.url config
       = "https://api.binance.com/api/v3/account?timestamp=1700000000000&signature=f7b2dea359f7329ee91bf4116307859c8016b7c45687f42e4cb6288b2422e3a9"
    /\ AxiosRequestConfig.url config
       <> AxiosRequestConfig.url
            (requestConfig Demo.service "/api/v3/account" [] "GET" (Demo.T + 2005))
    /\ fst (makeRequest Demo.service "/api/v3/account" [] "GET" 3 Demo.limited_once)
       = Return Demo.account.
Proof.
  exists (requestConfig Demo.service "/api/v3/account" [] "GET" Demo.T).
  split; [vm_compute; reflexivity |].
  split; [vm_compute; reflexivity |].
  split; [| vm_compute; reflexivity].
  intros H. apply String.eqb_eq in H. vm_compute in H. discriminate H.
Qed.

Lemma attempt_body_429 config retries attempt w r :
  AxiosRequestConfig.validateStatus config 429 = true ->
  outcome (exchange w (length (requests w)) config) = Replied r ->
  AxiosResponse.status r = 429 ->
  attempt_body config retries attempt w
  = (Return Continue, set_clock (clock (sent config w) + attempt * 2000) (sent config w)).
Proof.
  intros Hv Ho Hs.
  unfold attempt_body, try_catch, bind, axios.
  rewrite Ho, Hs, Hv. cbv beta iota. rewrite Hs. reflexivity.
Qed.

Lemma attempts_429 config retries :
  AxiosRequestConfig.validateStatus config 429 = true ->
  forall fuel attempt w,
    always_429 w ->
    attempt + Z.of_nat fuel = retries + 1 ->
    exists w',
      attempts config retries fuel attempt w = (Return undefined, w')
      /\ length (requests w') = (length (requests w) + fuel)%nat.
Proof.
  intros Hv. induction fuel as [| fuel IH]; intros attempt w H429 Hfuel; cbn [attempts].
  - exists w. split; [reflexivity | lia].
  - replace (attempt <=? retries) with true by (symmetry; apply Z.leb_le; lia).
    destruct (H429 (length (requests w)) config) as (r & Ho & Hs).
    unfold bind. rewrite (attempt_body_429 config retries attempt w r Hv Ho Hs).
    edestruct (IH (attempt + 1)) as (w' & Hrun & Hlen); [| | exists w'; split; [exact Hrun |]].
    + exact H429.
    + lia.
    + rewrite Hlen. cbn. rewrite length_app. cbn. lia.
Qed.

(** C1, as the code has it (a defect).  With credentials, [retries = 3] and
    an exchange that answers every attempt with HTTP 429, [makeRequest] sends
    exactly 3 requests and then resolves with [undefined]: the call ends, but
    with no error raised. *)
Theorem always_429_resolves_undefined this endpoint queryParams httpMethod w :
  apiKey this <> "" ->
  apiSecret this <> "" ->
  always_429 w ->
  exists w',
    makeRequest this endpoint queryParams httpMethod 3 w = (Return undefined, w')
    /\ length (requests w') = (length (requests w) + 3)%nat.
Proof.
  intros Hk Hs H429. unfold makeRequest.
  rewrite (credentials_guard this Hk Hs). unfold bind, Date_now.
  apply attempts_429; [reflexivity | exact H429 | reflexivity].
Qed.

Lemma always_429_witness :
  exists w',
    makeRequest Demo.service "/api/v3/account" [] "GET" 3 Demo.rate_limited
    = (Return undefined, w')
    /\ length (requests w') = (length (requests Demo.rate_limited) + 3)%nat.
Proof.
  apply (always_429_resolves_undefined Demo.service "/api/v3/account" [] "GET" Demo.rate_limited).
  - discriminate.
  - discriminate.
  - intros n config. eexists. split; reflexivity.
Defined.

(** What [calculateTotalAssets] makes of it: a [TypeError]. *)
Example rate_limited_valuation :
  fst (calculateTotalAssets Demo.service Demo.rate_limited)
  = Throw (TypeError "Cannot read properties of undefined (reading 'balances')").
Proof. vm_compute. reflexivity. Qed.

Lemma attempt_body_refused config retries attempt w message :
  outcome (exchange w (length (requests w)) config) = Failed (Some "ECONNREFUSED") message true ->
  attempt_body config retries attempt w
  = if attempt <? retries
    then (Return Continue, set_clock (clock (sent config w) + attempt * 2000) (sent config w))
    else (Throw (Error ("Network Error: " +:+ message)), sent config w).
Proof.
  intros Ho. unfold attempt_body, try_catch, bind, axios. rewrite Ho. cbn.
  destruct (attempt <? retries); reflexivity.
Qed.

Lemma attempts_refused config retries message :
  forall fuel attempt w,
    always_refused message w ->
    (1 <= fuel)%nat ->
    attempt + Z.of_nat fuel = retries + 1 ->
    exists w',
      attempts config retries fuel attempt w
      = (Throw (Error ("Network Error: " +:+ message)), w')
      /\ length (requests w') = (length (requests w) + fuel)%nat.
Proof.
  induction fuel as [| fuel IH]; intros attempt w Href Hpos Hfuel; [lia |].
  cbn [attempts].
  replace (attempt <=? retries) with true by (symmetry; apply Z.leb_le; lia).
  unfold bind. rewrite (attempt_body_refused config retries attempt w message (Href _ _)).
  destruct fuel as [| fuel].
  - replace (attempt <? retries) with false by (symmetry; apply Z.ltb_ge; lia).
    eexists. split; [reflexivity |]. cbn. rewrite length_app. cbn. lia.
  - replace (attempt <? retries) with true by (symmetry; apply Z.ltb_lt; lia).
    edestruct (IH (attempt + 1)) as (w' & Hrun & Hlen); [| | | exists w'; split; [exact Hrun |]].
    + exact Href.
    + lia.
    + lia.
    + rewrite Hlen. cbn. rewrite length_app. cbn. lia.
Qed.

(** X2.  The sibling path.  When every connection is refused, [makeRequest] with
    [retries = 3] makes exactly 3 attempts and throws the network error. *)
Theorem network_exhaustion_throws this endpoint queryParams httpMethod message w :
  apiKey this <> "" ->
  apiSecret this <> "" ->
  always_refused message w ->
  exists w',
    makeRequest this endpoint queryParams httpMethod 3 w
    = (Throw (Error ("Network Error: " +:+ message)), w')
    /\ length (requests w') = (length (requests w) + 3)%nat.
Proof.
  intros Hk Hs Href. unfold makeRequest.
  rewrite (credentials_guard this Hk Hs). unfold bind, Date_now.
  apply attempts_refused; [exact Href | cbn; lia | reflexivity].
Qed.

Lemma network_exhaustion_witness :
  exists w',
    makeRequest Demo.service "/api/v3/account" [] "GET" 3 Demo.unreachable
    = (Throw (Error ("Network Error: " +:+ "connect ECONNREFUSED")), w')
    /\ length (requests w') = (length (requests Demo.unreachable) + 3)%nat.
Proof.
  apply (network_exhaustion_throws Demo.service "/api/v3/account" [] "GET"
           "connect ECONNREFUSED" Demo.unreachable).
  - discriminate.
  - discriminate.
  - intros n config. reflexivity.
Defined.

Example unreachable_account :
  fst (getAccountInfo Demo.service Demo.unreachable)
  = Throw (Error "Network Error: connect ECONNREFUSED")
  /\ map fst (requests (snd (getAccountInfo Demo.service Demo.unreachable)))
     = [Demo.T; Demo.T + 2001; Demo.T + 6002].
Proof. split; vm_compute; reflexivity. Qed.

(** * The batch of [getSymbolPrices] *)

Lemma fetched_frame symbols :
  forall w,
    exchange (fetched w symbols) = exchange w
    /\ priceCache (fetched w symbols) = priceCache w
    /\ heap (fetched w symbols) = heap w
    /\ length (requests (fetched w symbols)) = (length (requests w) + length symbols)%nat.
Proof.
  induction symbols as [| symbol rest IH]; intros w; cbn [fetched fold_left length].
  - repeat split; lia.
  - destruct (IH (sent (ticker_config symbol) w)) as (He & Hc & Hh & Hr).
    fold (fetched (sent (ticker_config symbol) w) rest).
    rewrite He, Hc, Hh, Hr. cbn. rewrite length_app. cbn. repeat split; lia.
Qed.

Lemma answers_cons w symbol rest :
  answers w (symbol :: rest)
  = match success (ticker_config symbol)
            (exchange w (length (requests w)) (ticker_config symbol)) with
    | Some d => [d]
    | None => []
    end ++ answers (sent (ticker_config symbol) w) rest.
Proof.
  unfold answers. rewrite imap_cons. cbn [omap list_omap].
  replace (length (requests w) + 0)%nat with (length (requests w)) by lia.
  assert (Hext : imap
            ((fun i s => success (ticker_config s)
                           (exchange w (length (requests w) + i)%nat (ticker_config s))) ∘ S) rest
          = imap (fun i s => success (ticker_config s)
                    (exchange (sent (ticker_config symbol) w)
                       (length (requests (sent (ticker_config symbol) w)) + i)%nat
                       (ticker_config s))) rest).
  { apply imap_ext. intros i s _. cbn. rewrite length_app. cbn.
    replace (length (requests w) + 1 + i)%nat with (length (requests w) + S i)%nat by lia.
    reflexivity. }
  rewrite Hext.
  destruct (success _ _); reflexivity.
Qed.

(** The batch never throws: a lookup that fails adds nothing. *)
Lemma fetchEach_run symbols :
  forall prices w,
    fetchEach symbols prices w = (Return (prices ++ answers w symbols), fetched w symbols).
Proof.
  induction symbols as [| symbol rest IH]; intros prices w.
  - cbn. rewrite app_nil_r. reflexivity.
  - cbn [fetchEach]. unfold bind, try_catch, axios_get. fold (ticker_config symbol).
    rewrite answers_cons. cbn [fetched fold_left].
    destruct (success (ticker_config symbol)
                (exchange w (length (requests w)) (ticker_config symbol))) as [d |] eqn:Hs.
    + destruct (axios_success _ _ _ Hs) as (r & -> & Hd). cbn.
      rewrite IH, Hd, <- app_assoc. reflexivity.
    + destruct (axios_failure _ _ Hs) as (e & ->). cbn.
      rewrite IH. reflexivity.
Qed.

(** * The price cache *)

Lemma cached_fresh_hit cacheKey w cached :
  priceCache w !! cacheKey = Some cached ->
  clock w - CacheEntry.timestamp cached < priceCacheDuration ->
  cached_fresh cacheKey w = (Return (Some (CacheEntry.data cached)), w).
Proof.
  intros Hc Ht. unfold cached_fresh. rewrite Hc.
  rewrite (proj2 (Z.ltb_lt _ _) Ht). reflexivity.
Qed.

Lemma cached_fresh_miss cacheKey w :
  cache_miss cacheKey w -> cached_fresh cacheKey w = (Return None, w).
Proof.
  intros Hm. unfold cached_fresh.
  destruct (priceCache w !! cacheKey) as [cached |] eqn:Hc; [| reflexivity].
  specialize (Hm cached Hc).
  rewrite (proj2 (Z.ltb_ge _ _) Hm). reflexivity.
Qed.

Lemma getAllPrices_hit w cached :
  priceCache w !! "allPrices" = Some cached ->
  clock w - CacheEntry.timestamp cached < priceCacheDuration ->
  getAllPrices w = (Return (CacheEntry.data cached), w).
Proof.
  intros Hc Ht. unfold getAllPrices, bind.
  rewrite (cached_fresh_hit _ _ _ Hc Ht). reflexivity.
Qed.

Lemma getAllPrices_miss w :
  cache_miss "allPrices" w ->
  let w1 := sent all_prices_config w in
  match success all_prices_config (exchange w (length (requests w)) all_prices_config) with
  | Some prices =>
      getAllPrices w
      = (Return prices,
         set_priceCache
           (<["allPrices" := {| CacheEntry.data := prices; CacheEntry.timestamp := clock w1 |}]>
              (priceCache w)) w1)
  | None => exists e, getAllPrices w = (Throw e, w1)
  end.
Proof.
  intros Hm w1. unfold getAllPrices, bind.
  rewrite (cached_fresh_miss _ _ Hm).
  unfold try_catch, axios_get. fold all_prices_config.
  destruct (success all_prices_config _) as [prices |] eqn:Hs.
  - destruct (axios_success _ _ _ Hs) as (r & -> & Hd). cbn. rewrite Hd. reflexivity.
  - destruct (axios_failure _ _ Hs) as (e & ->). cbn. exists e. reflexivity.
Qed.

Lemma getAllPrices_heap w : heap (snd (getAllPrices w)) = heap w.
Proof.
  unfold getAllPrices, bind, cached_fresh.
  assert (Hfetch : forall w0, heap (snd (try_catch
           (response <- axios_get (baseURL +:+ "/api/v3/ticker/price") ;;
            let prices := AxiosResponse.data response in
            do cache_set "allPrices" prices ;; ret prices)
           (fun error => throw error) w0)) = heap w0).
  { intros w0. unfold try_catch, bind, axios_get.
    pose proof (axios_world all_prices_config w0) as Hw. fold all_prices_config.
    destruct (axios all_prices_config w0) as [[r | e] w1]; cbn in Hw |- *; subst w1; reflexivity. }
  destruct (priceCache w !! "allPrices") as [cached |]; [| apply Hfetch].
  destruct (clock w - CacheEntry.timestamp cached <? priceCacheDuration); [reflexivity | apply Hfetch].
Qed.

Lemma nonempty_length {A} (l : list A) : l <> [] -> (length l =? 0)%nat = false.
Proof. destruct l; [congruence | reflexivity]. Qed.

Lemma getSymbolPrices_hit w symbols elements cached :
  heap w !! symbols = Some elements ->
  elements <> [] ->
  priceCache w !! String.concat "," (Array_sort default_compare elements) = Some cached ->
  clock w - CacheEntry.timestamp cached < priceCacheDuration ->
  getSymbolPrices symbols w = (Return (CacheEntry.data cached), sorted_in_place symbols elements w).
Proof.
  intros Hh Hne Hc Ht. unfold getSymbolPrices, bind, read. rewrite Hh.
  rewrite (nonempty_length _ Hne). unfold write.
  fold (sorted_in_place symbols elements w).
  rewrite (cached_fresh_hit _ (sorted_in_place symbols elements w) cached Hc Ht). reflexivity.
Qed.

Lemma getSymbolPrices_miss w symbols elements :
  heap w !! symbols = Some elements ->
  elements <> [] ->
  let sorted := Array_sort default_compare elements in
  let cacheKey := String.concat "," sorted in
  let w0 := sorted_in_place symbols elements w in
  let w1 := fetched w0 sorted in
  let quotes := answers w0 sorted in
  cache_miss cacheKey w ->
  getSymbolPrices symbols w
  = if (0 <? length quotes)%nat
    then (Return (array quotes),
          set_priceCache
            (<[cacheKey := {| CacheEntry.data := array quotes; CacheEntry.timestamp := clock w1 |}]>
               (priceCache w1)) w1)
    else getAllPrices w1.
Proof.
  intros Hh Hne sorted cacheKey w0 w1 quotes Hm.
  unfold getSymbolPrices, bind, read. rewrite Hh.
  rewrite (nonempty_length _ Hne). unfold write.
  fold (sorted_in_place symbols elements w). fold w0. fold sorted. fold cacheKey.
  rewrite (cached_fresh_miss cacheKey w0 Hm).
  unfold try_catch, bind. rewrite fetchEach_run. cbn [app]. fold quotes. fold w1.
  destruct (0 <? length quotes)%nat.
  - reflexivity.
  - destruct (getAllPrices w1) as [[v | e] w2]; reflexivity.
Qed.

Lemma cache_hit_or_miss cacheKey w :
  (exists cached, priceCache w !! cacheKey = Some cached
                  /\ clock w - CacheEntry.timestamp cached < priceCacheDuration)
  \/ cache_miss cacheKey w.
Proof.
  destruct (priceCache w !! cacheKey) as [cached |] eqn:Hc.
  - destruct (Z.lt_ge_cases (clock w - CacheEntry.timestamp cached) priceCacheDuration) as [Hlt | Hge].
    + left. exists cached. auto.
    + right. intros cached' Hc'. rewrite Hc in Hc'. inversion Hc'; subst. exact Hge.
  - right. intros cached' Hc'. rewrite Hc in Hc'. discriminate.
Qed.

Lemma getSymbolPrices_heap w symbols elements :
  heap w !! symbols = Some elements ->
  elements <> [] ->
  heap (snd (getSymbolPrices symbols w))
  = <[symbols := Array_sort default_compare elements]> (heap w).
Proof.
  intros Hh Hne.
  destruct (cache_hit_or_miss (String.concat "," (Array_sort default_compare elements)) w)
    as [(cached & Hc & Ht) | Hm].
  - rewrite (getSymbolPrices_hit _ _ _ _ Hh Hne Hc Ht). reflexivity.
  - rewrite (getSymbolPrices_miss _ _ _ Hh Hne Hm).
    destruct (fetched_frame (Array_sort default_compare elements)
                (sorted_in_place symbols elements w)) as (_ & _ & Hheap & _).
    destruct (0 <? length _)%nat.
    + cbn. rewrite Hheap. reflexivity.
    + rewrite getAllPrices_heap, Hheap. reflexivity.
Qed.

(** C10.  A call of [getSymbolPrices] on a non-empty array leaves the
    caller's array sorted in place: what the heap holds at [symbols]
    afterwards is a permutation of the elements in the order of the strings,
    whatever the call returned and whether or not the cache was hit. *)
Theorem getSymbolPrices_sorts_the_argument w symbols elements :
  heap w !! symbols = Some elements ->
  elements <> [] ->
  exists sorted,
    heap (snd (getSymbolPrices symbols w)) !! symbols = Some sorted
    /\ Permutation elements sorted
    /\ StronglySorted string_le sorted.
Proof.
  intros Hh Hne. exists (Array_sort default_compare elements).
  rewrite (getSymbolPrices_heap _ _ _ Hh Hne). split; [apply lookup_insert_eq |].
  split; [symmetry; apply Array_sort_permutation | apply sort_strings_sorted].
Qed.

Lemma positive_length {A} (l : list A) : l <> [] -> (0 <? length l)%nat = true.
Proof. destruct l; [congruence | reflexivity]. Qed.

(** C5.  On a cache miss with a non-empty array, [getSymbolPrices] sends one
    request per symbol and never fails because a lookup failed: [quotes] are
    the bodies of the lookups that resolved, in order.  When there is at
    least one, exactly those are cached under the key and returned.  When
    there is none, the call is [getAllPrices] from there on, so that it
    returns the full snapshot when that request resolves. *)
Theorem batch_skips_failures_and_falls_back w symbols elements :
  heap w !! symbols = Some elements ->
  elements <> [] ->
  let sorted := Array_sort default_compare elements in
  let cacheKey := String.concat "," sorted in
  let w0 := sorted_in_place symbols elements w in
  let w1 := fetched w0 sorted in
  let quotes := answers w0 sorted in
  cache_miss cacheKey w ->
  (quotes <> [] ->
     getSymbolPrices symbols w
     = (Return (array quotes),
        set_priceCache
          (<[cacheKey := {| CacheEntry.data := array quotes; CacheEntry.timestamp := clock w1 |}]>
             (priceCache w)) w1))
  /\ (quotes = [] ->
        getSymbolPrices symbols w = getAllPrices w1
        /\ forall prices,
             cache_miss "allPrices" w1 ->
             success all_prices_config
               (exchange w1 (length (requests w1)) all_prices_config) = Some prices ->
             fst (getSymbolPrices symbols w) = Return prices)
  /\ length (requests w1) = (length (requests w) + length elements)%nat.
Proof.
  intros Hh Hne sorted cacheKey w0 w1 quotes Hm.
  pose proof (getSymbolPrices_miss _ _ _ Hh Hne Hm) as Hrun. cbv zeta in Hrun.
  fold sorted cacheKey w0 w1 quotes in Hrun.
  destruct (fetched_frame sorted w0) as (_ & Hcache & _ & Hlen). fold w1 in Hcache, Hlen.
  split; [| split].
  - intros Hq. rewrite Hrun, (positive_length _ Hq), Hcache. reflexivity.
  - intros Hq. rewrite Hq in Hrun. cbn in Hrun. split; [exact Hrun |].
    intros prices Hall Hs. rewrite Hrun.
    pose proof (getAllPrices_miss w1 Hall) as Hget. cbv zeta in Hget.
    rewrite Hs in Hget. rewrite Hget. reflexivity.
  - rewrite Hlen. cbn. f_equal. unfold sorted.
    apply Permutation_length. apply Array_sort_permutation.
Qed.





Lemma sorts_the_argument_witness :
  exists sorted,
    heap (snd (getSymbolPrices 1%positive
                 (Demo.with_array ["ETHUSDT"; "BTCUSDT"] Demo.open_market))) !! 1%positive
    = Some sorted
    /\ Permutation ["ETHUSDT"; "BTCUSDT"] sorted
    /\ StronglySorted string_le sorted.
Proof.
  apply (getSymbolPrices_sorts_the_argument
           (Demo.with_array ["ETHUSDT"; "BTCUSDT"] Demo.open_market) 1%positive).
  - vm_compute. reflexivity.
  - discriminate.
Defined.

(** The caller's [["ETHUSDT"; "BTCUSDT"]] has become [["BTCUSDT"; "ETHUSDT"]]. *)
Example caller_array_after_the_call :
  heap (snd (getSymbolPrices 1%positive
               (Demo.with_array ["ETHUSDT"; "BTCUSDT"] Demo.open_market))) !! 1%positive
  = Some ["BTCUSDT"; "ETHUSDT"].
Proof. vm_compute. reflexivity. Qed.

(** An empty array is returned at once and left alone. *)
Example empty_symbols :
  getSymbolPrices 1%positive (Demo.with_array [] Demo.open_market)
  = (Return (array []), Demo.with_array [] Demo.open_market).
Proof. reflexivity. Qed.

Lemma empty_cache_miss cacheKey w : priceCache w = ∅ -> cache_miss cacheKey w.
Proof. intros H cached Hc. rewrite H, lookup_empty in Hc. discriminate Hc. Qed.

Lemma batch_witness :
  fst (getSymbolPrices 1%positive (Demo.with_array ["NOPEUSDT"; "BTCUSDT"] Demo.open_market))
  = Return (array [Demo.quote "BTCUSDT" "50000.00000000"])
  /\ fst (getSymbolPrices 1%positive (Demo.with_array ["NOPEUSDT"; "FAKEUSDT"] Demo.open_market))
     = Return Demo.snapshot.
Proof.
  split.
  - destruct (batch_skips_failures_and_falls_back
                (Demo.with_array ["NOPEUSDT"; "BTCUSDT"] Demo.open_market) 1%positive
                ["NOPEUSDT"; "BTCUSDT"]) as (Hsome & _ & _).
    + vm_compute. reflexivity.
    + discriminate.
    + apply empty_cache_miss. reflexivity.
    + rewrite Hsome; [vm_compute; reflexivity |]. vm_compute. discriminate.
  - destruct (batch_skips_failures_and_falls_back
                (Demo.with_array ["NOPEUSDT"; "FAKEUSDT"] Demo.open_market) 1%positive
                ["NOPEUSDT"; "FAKEUSDT"]) as (_ & Hnone & _).
    + vm_compute. reflexivity.
    + discriminate.
    + apply empty_cache_miss. reflexivity.
    + destruct Hnone as [_ Hall]; [vm_compute; reflexivity |].
      apply Hall.
      * apply empty_cache_miss. apply fetched_frame.
      * vm_compute. reflexivity.
Defined.

(** The batch that obtained one quote cached it, alone, under the sorted key. *)
Example batch_caches_what_it_got :
  map_to_list
    (priceCache (snd (getSymbolPrices 1%positive
                        (Demo.with_array ["NOPEUSDT"; "BTCUSDT"] Demo.open_market))))
  = [("BTCUSDT,NOPEUSDT",
      {| CacheEntry.data := array [Demo.quote "BTCUSDT" "50000.00000000"];
         CacheEntry.timestamp := Demo.T + 10 |})].
Proof. vm_compute. reflexivity. Qed.


(** The batch of [["ETHUSDT"; "BTCUSDT"]], cached at T under the sorted key:
    at T + 999 the entry is returned and nothing is sent. *)
Example batch_cache_hit :
  fst (getSymbolPrices 1%positive
         (set_clock (Demo.T + 999)
            (Demo.cached_at "BTCUSDT,ETHUSDT" Demo.stale_snapshot Demo.T
               (Demo.with_array ["ETHUSDT"; "BTCUSDT"] Demo.open_market))))
  = Return Demo.stale_snapshot
  /\ requests (snd (getSymbolPrices 1%positive
                      (set_clock (Demo.T + 999)
                         (Demo.cached_at "BTCUSDT,ETHUSDT" Demo.stale_snapshot Demo.T
                            (Demo.with_array ["ETHUSDT"; "BTCUSDT"] Demo.open_market)))))
     = [].
Proof.
  destruct (getSymbolPrices_hit
              (set_clock (Demo.T + 999)
                 (Demo.cached_at "BTCUSDT,ETHUSDT" Demo.stale_snapshot Demo.T
                    (Demo.with_array ["ETHUSDT"; "BTCUSDT"] Demo.open_market)))
              1%positive ["ETHUSDT"; "BTCUSDT"]
              {| CacheEntry.data := Demo.stale_snapshot; CacheEntry.timestamp := Demo.T |}).
  - vm_compute. reflexivity.
  - discriminate.
  - vm_compute. reflexivity.
  - vm_compute. reflexivity.
  - split; reflexivity.
Qed.

(** The same two instants for a batch: at T + 999 the entry is returned and
    nothing is sent, at T + 1001 the symbol is asked for again. *)
Example batch_cache_ttl :
  (let w := set_clock (Demo.T + 999)
              (Demo.cached_at "BTCUSDT" Demo.stale_snapshot Demo.T
                 (Demo.with_array ["BTCUSDT"] Demo.open_market)) in
   fst (getSymbolPrices 1%positive w) = Return Demo.stale_snapshot
   /\ requests (snd (getSymbolPrices 1%positive w)) = [])
  /\ (let w := set_clock (Demo.T + 1001)
                 (Demo.cached_at "BTCUSDT" Demo.stale_snapshot Demo.T
                    (Demo.with_array ["BTCUSDT"] Demo.open_market)) in
      fst (getSymbolPrices 1%positive w) = Return (array [Demo.quote "BTCUSDT" "50000.00000000"])
      /\ map fst (requests (snd (getSymbolPrices 1%positive w))) = [Demo.T + 1001]).
Proof. repeat split; vm_compute; reflexivity. Qed.

(** * The valuation loop *)

Lemma valuation_step_listed priceMap acc balance :
  valuation_step priceMap acc balance
  = if listed priceMap balance
    then (add (fst acc) (ParsedAsset.usdtValue (parsedAsset priceMap balance)),
          snd acc ++ [parsedAsset priceMap balance])
    else acc.
Proof.
  unfold valuation_step, listed, parsedAsset. fold (totalOf balance). simpl.
  destruct (gtb (totalOf balance) (num 0)); simpl; [| reflexivity].
  destruct (resolve priceMap (asset balance) (totalOf balance)) as [usdtValue currentPrice]. simpl.
  destruct (gtb usdtValue threshold); reflexivity.
Qed.

Lemma valuation_fold priceMap balances :
  forall acc,
    fold_left (valuation_step priceMap) balances acc
    = (fold_left add
         (map ParsedAsset.usdtValue (map (parsedAsset priceMap) (List.filter (listed priceMap) balances)))
         (fst acc),
       snd acc ++ map (parsedAsset priceMap) (List.filter (listed priceMap) balances)).
Proof.
  induction balances as [| balance balances IH]; intros [totalUSDT assets]; simpl.
  - rewrite app_nil_r. reflexivity.
  - rewrite IH, valuation_step_listed.
    destruct (listed priceMap balance); simpl; [| reflexivity].
    rewrite <- app_assoc. reflexivity.
Qed.

Lemma valuate_eq balances priceMap :
  valuate balances priceMap
  = (fold_left add
       (map ParsedAsset.usdtValue (map (parsedAsset priceMap) (List.filter (listed priceMap) balances)))
       (num 0),
     Array_sort by_value_descending
       (map (parsedAsset priceMap) (List.filter (listed priceMap) balances))).
Proof.
  unfold valuate. rewrite valuation_fold. reflexivity.
Qed.

Lemma In_valuate balances priceMap x :
  In x (snd (valuate balances priceMap))
  <-> exists balance,
        In balance balances /\ listed priceMap balance = true /\ x = parsedAsset priceMap balance.
Proof.
  rewrite valuate_eq. simpl.
  rewrite (Permutation_in' (eq_refl x) (Array_sort_permutation by_value_descending _)).
  rewrite in_map_iff. split.
  - intros (balance & Hx & Hin). apply filter_In in Hin. destruct Hin. exists balance. auto.
  - intros (balance & Hin & Hl & Hx). exists balance. split; [auto |]. apply filter_In. auto.
Qed.






(** * The price of an asset *)

Lemma Map_has_Some (priceMap : gmap string number) key v :
  priceMap !! key = Some v -> Map_has priceMap key = true /\ Map_get priceMap key = v.
Proof. intros H. unfold Map_has, Map_get. rewrite H. auto. Qed.

Lemma Map_has_None (priceMap : gmap string number) key :
  priceMap !! key = None -> Map_has priceMap key = false.
Proof. intros H. unfold Map_has. rewrite H. reflexivity. Qed.

Lemma resolve_reference priceMap total :
  resolve priceMap "USDT" total = (total, Some (num 1)).
Proof. reflexivity. Qed.

Lemma resolve_direct priceMap asset total p :
  asset <> "USDT" ->
  priceMap !! (asset +:+ "USDT") = Some p ->
  resolve priceMap asset total = (mul total p, Some p).
Proof.
  intros Ha Hp. unfold resolve. rewrite (proj2 (String.eqb_neq _ _) Ha).
  destruct (Map_has_Some _ _ _ Hp) as [-> ->]. reflexivity.
Qed.

Lemma resolve_bridge priceMap asset total b u :
  asset <> "USDT" ->
  priceMap !! (asset +:+ "USDT") = None ->
  priceMap !! (asset +:+ "BTC") = Some b ->
  priceMap !! "BTCUSDT" = Some u ->
  resolve priceMap asset total = (mul total (mul b u), Some (mul b u)).
Proof.
  intros Ha Hp Hb Hu. unfold resolve. rewrite (proj2 (String.eqb_neq _ _) Ha).
  rewrite (Map_has_None _ _ Hp).
  destruct (Map_has_Some _ _ _ Hb) as [-> ->].
  destruct (Map_has_Some _ _ _ Hu) as [-> ->]. reflexivity.
Qed.

Lemma resolve_unresolved priceMap asset total :
  asset <> "USDT" ->
  priceMap !! (asset +:+ "USDT") = None ->
  priceMap !! (asset +:+ "BTC") = None \/ priceMap !! "BTCUSDT" = None ->
  resolve priceMap asset total = (num 0, None).
Proof.
  intros Ha Hp Hb. unfold resolve. rewrite (proj2 (String.eqb_neq _ _) Ha).
  rewrite (Map_has_None _ _ Hp).
  destruct Hb as [Hb | Hb]; rewrite (Map_has_None _ _ Hb); [reflexivity |].
  rewrite andb_false_r. reflexivity.
Qed.

Lemma resolve_null_value priceMap asset total :
  snd (resolve priceMap asset total) = None -> fst (resolve priceMap asset total) = num 0.
Proof.
  unfold resolve. destruct (String.eqb asset "USDT"); [discriminate |].
  destruct (Map_has priceMap (asset +:+ "USDT")); [discriminate |].
  destruct (Map_has priceMap (asset +:+ "BTC") && Map_has priceMap "BTCUSDT"); [discriminate |].
  reflexivity.
Qed.

(** C4.  The price of a held asset follows the chain: USDT is worth 1 and
    its value is its total; otherwise the direct pair [{asset}USDT], when
    the price map has it, gives the price and [total * price]; otherwise
    [{asset}BTC] and [BTCUSDT], when the map has both, give their product and
    [total * product]; otherwise there is no price and the value is 0.
    Every asset of the output has a positive total and carries the price and
    the value the chain gives it, and an asset left without a price is not
    in the output. *)
Theorem price_fallback_chain priceMap :
  (forall a total,
     (a = "USDT" -> resolve priceMap a total = (total, Some (num 1)))
     /\ (a <> "USDT" -> forall p, priceMap !! (a +:+ "USDT") = Some p ->
           resolve priceMap a total = (mul total p, Some p))
     /\ (a <> "USDT" -> priceMap !! (a +:+ "USDT") = None ->
           forall b u, priceMap !! (a +:+ "BTC") = Some b -> priceMap !! "BTCUSDT" = Some u ->
           resolve priceMap a total = (mul total (mul b u), Some (mul b u)))
     /\ (a <> "USDT" -> priceMap !! (a +:+ "USDT") = None ->
           priceMap !! (a +:+ "BTC") = None \/ priceMap !! "BTCUSDT" = None ->
           resolve priceMap a total = (num 0, None)))
  /\ (forall balances x,
        In x (snd (valuate balances priceMap)) ->
        gtb (ParsedAsset.total x) (num 0) = true
        /\ (ParsedAsset.usdtValue x, ParsedAsset.currentPrice x)
           = resolve priceMap (ParsedAsset.asset x) (ParsedAsset.total x))
  /\ (forall balances balance,
        In balance balances ->
        snd (resolve priceMap (asset balance) (totalOf balance)) = None ->
        fst (resolve priceMap (asset balance) (totalOf balance)) = num 0
        /\ ~ In (parsedAsset priceMap balance) (snd (valuate balances priceMap))).
Proof.
  split; [| split].
  - intros a total. split; [| split; [| split]].
    + intros ->. apply resolve_reference.
    + intros Ha p Hp. apply resolve_direct; assumption.
    + intros Ha Hp b u Hb Hu. apply resolve_bridge; assumption.
    + intros Ha Hp Hb. apply resolve_unresolved; assumption.
  - intros balances x Hin. apply In_valuate in Hin.
    destruct Hin as (balance & _ & Hl & ->).
    unfold listed in Hl. apply andb_true_iff in Hl. destruct Hl as [Hheld _].
    cbn [parsedAsset ParsedAsset.asset ParsedAsset.currentPrice ParsedAsset.usdtValue
         ParsedAsset.total].
    split; [exact Hheld |]. symmetry. apply surjective_pairing.
  - intros balances balance Hin Hnone.
    split; [apply resolve_null_value; exact Hnone |].
    intros Hx. apply In_valuate in Hx. destruct Hx as (balance' & _ & Hl & Heq).
    unfold listed in Hl. apply andb_true_iff in Hl. destruct Hl as [_ Hv].
    rewrite <- Heq in Hv. cbn [parsedAsset ParsedAsset.usdtValue] in Hv.
    rewrite (resolve_null_value _ _ _ Hnone), zero_not_material in Hv. discriminate Hv.
Qed.

(** XYZ, quoted against BTC only: 2 XYZ at 0.01 BTC, BTC at 50000, is 1000
    at the price 500. *)
Lemma bridge_pricing_witness :
  resolve Demo.bridge_prices "XYZ" (num 2) = (num 1000, Some (num 500))
  /\ valuate [Demo.xyz] Demo.bridge_prices
     = (num 1000,
        [ {| ParsedAsset.asset := "XYZ";
             ParsedAsset.free := num 2;
             ParsedAsset.locked := num 0;
             ParsedAsset.total := num 2;
             ParsedAsset.usdtValue := num 1000;
             ParsedAsset.type := "现货";
             ParsedAsset.currentPrice := Some (num 500) |} ])
  /\ ~ In (parsedAsset Demo.dust_prices Demo.nope)
          (snd (valuate [Demo.dust; Demo.nope] Demo.dust_prices)).
Proof.
  split; [| split].
  - destruct (price_fallback_chain Demo.bridge_prices) as (Hchain & _ & _).
    destruct (Hchain "XYZ" (num 2)) as (_ & _ & Hbridge & _).
    rewrite (Hbridge ltac:(discriminate) ltac:(vm_compute; reflexivity)
               (parseFloat "0.01") (parseFloat "50000")
               ltac:(vm_compute; reflexivity) ltac:(vm_compute; reflexivity)).
    vm_compute. reflexivity.
  - vm_compute. reflexivity.
  - destruct (price_fallback_chain Demo.dust_prices) as (_ & _ & Hout).
    apply (Hout [Demo.dust; Demo.nope] Demo.nope).
    + right. left. reflexivity.
    + vm_compute. reflexivity.
Defined.



(** Nothing of that account is listed. *)
Example dust_account : valuate [Demo.dust; Demo.nope] Demo.dust_prices = (num 0, []).
Proof. vm_compute. reflexivity. Qed.

Lemma calculateTotalAssets_valuate this w snapshot w' :
  calculateTotalAssets this w = (Return snapshot, w') ->
  exists a w1 ps priceMap,
    getAccountInfo this w = (Return (ofAccountInfo a), w1)
    /\ forEach_set ps ∅ = Return priceMap
    /\ totalUSDT snapshot = fst (valuate (balances a) priceMap)
    /\ assets snapshot = snd (valuate (balances a) priceMap).
Proof.
  unfold calculateTotalAssets, bind.
  destruct (getAccountInfo this w) as [[info | e] w1]; [| discriminate].
  destruct info as [| a | p | c m | xs]; try discriminate.
  match goal with
  | |- context [match ?fetch w1 with _ => _ end] => destruct (fetch w1) as [[prices | e] w2]
  end; [| discriminate].
  destruct prices as [| a' | p | c m | ps]; try discriminate.
  destruct (forEach_set ps ∅) as [priceMap | e] eqn:Hmap; [| discriminate].
  destruct (valuate (balances a) priceMap) as [total sorted] eqn:Hv.
  unfold Date_now, ret. intros H. inversion H; subst. cbn [totalUSDT assets].
  exists a, w1, ps, priceMap. rewrite Hv. auto.
Qed.



(** With nothing held the snapshot is empty and worth 0. *)
Example valuate_nothing priceMap : valuate [] priceMap = (num 0, []).
Proof. reflexivity. Qed.

(** * Further properties *)

Lemma sorted_permutation_unique (l : list string) :
  forall l', StronglySorted string_le l -> StronglySorted string_le l' ->
             Permutation l l' -> l = l'.
Proof.
  induction l as [| x l IH]; intros [| y l'] Hs Hs' Hp.
  - reflexivity.
  - apply Permutation_nil in Hp. discriminate Hp.
  - symmetry in Hp. apply Permutation_nil in Hp. discriminate Hp.
  - inversion Hs as [| ? ? Hsl Hx]; subst. inversion Hs' as [| ? ? Hsl' Hy]; subst.
    assert (Hxy : x = y).
    { assert (Hin : In y (x :: l)) by (eapply Permutation_in; [symmetry; exact Hp | left; reflexivity]).
      assert (Hin' : In x (y :: l')) by (eapply Permutation_in; [exact Hp | left; reflexivity]).
      destruct Hin as [E | Hin]; [exact E |].
      destruct Hin' as [E | Hin']; [symmetry; exact E |].
      apply String.leb_antisym.
      - apply (proj1 (List.Forall_forall _ _) Hx y Hin).
      - apply (proj1 (List.Forall_forall _ _) Hy x Hin'). }
    subst y. f_equal. apply IH; [assumption | assumption |].
    eapply Permutation_cons_inv. exact Hp.
Qed.

(** X1.  The key of a batch does not depend on the order in which the
    symbols are given: [["ETH"; "BTC"]] and [["BTC"; "ETH"]] read and write
    one entry. *)
Theorem cache_key_order_invariant (elements elements' : list string) :
  Permutation elements elements' ->
  String.concat "," (Array_sort default_compare elements)
  = String.concat "," (Array_sort default_compare elements').
Proof.
  intros Hp. f_equal. apply sorted_permutation_unique.
  - apply sort_strings_sorted.
  - apply sort_strings_sorted.
  - eapply Permutation_trans; [apply Array_sort_permutation |].
    eapply Permutation_trans; [exact Hp |]. symmetry. apply Array_sort_permutation.
Qed.

Lemma cache_key_witness :
  String.concat "," (Array_sort default_compare ["ETH"; "BTC"])
  = String.concat "," (Array_sort default_compare ["BTC"; "ETH"]).
Proof.
  apply (cache_key_order_invariant ["ETH"; "BTC"] ["BTC"; "ETH"]).
  apply perm_swap.
Defined.

(** X3.  An HTTP error other than 429 is not retried: the first attempt that
    meets a status in [400, 500) other than 429 throws, whatever [retries]
    allows, and one request was sent. *)
Theorem rejection_is_not_retried this endpoint queryParams httpMethod retries w r :
  apiKey this <> "" ->
  apiSecret this <> "" ->
  1 <= retries ->
  outcome (exchange w (length (requests w))
             (requestConfig this endpoint queryParams httpMethod (clock w))) = Replied r ->
  400 <= AxiosResponse.status r < 500 ->
  AxiosResponse.status r <> 429 ->
  exists e,
    makeRequest this endpoint queryParams httpMethod retries w
    = (Throw e, sent (requestConfig this endpoint queryParams httpMethod (clock w)) w).
Proof.
  intros Hk Hs Hretries Ho Hstatus H429. unfold makeRequest.
  rewrite (credentials_guard this Hk Hs). unfold bind at 1. unfold Date_now.
  destruct (Z.to_nat retries) as [| fuel] eqn:Hfuel; [lia |].
  cbn [attempts]. replace (1 <=? retries) with true by (symmetry; apply Z.leb_le; lia).
  unfold bind, attempt_body, try_catch, bind, axios, sent. rewrite Ho. cbn.
  replace (AxiosResponse.status r <? 500) with true by (symmetry; apply Z.ltb_lt; lia).
  replace (400 <=? AxiosResponse.status r) with true by (symmetry; apply Z.leb_le; lia).
  replace (AxiosResponse.status r =? 429) with false by (symmetry; apply Z.eqb_neq; exact H429).
  unfold msg_or. destruct (AxiosResponse.data r); cbn; eexists; reflexivity.
Qed.

Lemma rejection_witness :
  exists e,
    makeRequest Demo.service "/api/v3/nothing" [] "GET" 3 Demo.open_market
    = (Throw e, sent (requestConfig Demo.service "/api/v3/nothing" [] "GET" Demo.T)
                  Demo.open_market).
Proof.
  apply (rejection_is_not_retried Demo.service "/api/v3/nothing" [] "GET" 3 Demo.open_market
           {| AxiosResponse.status := 400;
              AxiosResponse.statusText := "Bad Request";
              AxiosResponse.data := errorBody (-1121) "Invalid symbol." |}).
  - discriminate.
  - discriminate.
  - lia.
  - vm_compute. reflexivity.
  - cbn. lia.
  - discriminate.
Defined.

Example rejection_message :
  fst (makeRequest Demo.service "/api/v3/nothing" [] "GET" 3 Demo.open_market)
  = Throw (Error "API Error 400: Invalid symbol.").
Proof. vm_compute. reflexivity. Qed.

(** * Further properties of [makeRequest] *)

Lemma attempt_body_silent config retries attempt w code message :
  outcome (exchange w (length (requests w)) config) = Failed code message true ->
  is_network_code code = false ->
  attempt_body config retries attempt w
  = if attempt <? retries
    then (Return Continue, set_clock (clock (sent config w) + attempt * 3000) (sent config w))
    else (Throw (Error ("Network Error: No response from server after "
                        +:+ toString retries +:+ " attempts")), sent config w).
Proof.
  intros Ho Hc. unfold attempt_body, try_catch, bind, axios. rewrite Ho. cbn.
  rewrite Hc. destruct (attempt <? retries); reflexivity.
Qed.

Lemma attempts_silent config retries message :
  forall fuel attempt w,
    always_silent message w ->
    (1 <= fuel)%nat ->
    attempt + Z.of_nat fuel = retries + 1 ->
    exists w',
      attempts config retries fuel attempt w
      = (Throw (Error ("Network Error: No response from server after "
                       +:+ toString retries +:+ " attempts")), w')
      /\ length (requests w') = (length (requests w) + fuel)%nat.
Proof.
  induction fuel as [| fuel IH]; intros attempt w Hsilent Hpos Hfuel; [lia |].
  cbn [attempts].
  replace (attempt <=? retries) with true by (symmetry; apply Z.leb_le; lia).
  destruct (Hsilent (length (requests w)) config) as (code & Ho & Hc).
  unfold bind. rewrite (attempt_body_silent config retries attempt w code message Ho Hc).
  destruct fuel as [| fuel].
  - replace (attempt <? retries) with false by (symmetry; apply Z.ltb_ge; lia).
    eexists. split; [reflexivity |]. cbn. rewrite length_app. cbn. lia.
  - replace (attempt <? retries) with true by (symmetry; apply Z.ltb_lt; lia).
    edestruct (IH (attempt + 1)) as (w' & Hrun & Hlen); [| | | exists w'; split; [exact Hrun |]].
    + exact Hsilent.
    + lia.
    + lia.
    + rewrite Hlen. cbn. rewrite length_app. cbn. lia.
Qed.

(** X4.  When no request is ever answered, [makeRequest] makes exactly
    [retries] attempts, for any [retries] of at least 1, and throws the
    no-response error, which names that count. *)
Theorem no_response_exhaustion_throws this endpoint queryParams httpMethod retries message w :
  apiKey this <> "" ->
  apiSecret this <> "" ->
  1 <= retries ->
  always_silent message w ->
  exists w',
    makeRequest this endpoint queryParams httpMethod retries w
    = (Throw (Error ("Network Error: No response from server after "
                     +:+ toString retries +:+ " attempts")), w')
    /\ Z.of_nat (length (requests w')) = Z.of_nat (length (requests w)) + retries.
Proof.
  intros Hk Hs Hretries Hsilent. unfold makeRequest.
  rewrite (credentials_guard this Hk Hs). unfold bind, Date_now.
  destruct (attempts_silent (requestConfig this endpoint queryParams httpMethod (clock w))
              retries message (Z.to_nat retries) 1 w Hsilent) as (w' & Hrun & Hlen); [lia | lia |].
  exists w'. split; [exact Hrun | lia].
Qed.

Lemma no_response_witness :
  exists w',
    makeRequest Demo.service "/api/v3/account" [] "GET" 2 Cases.silent
    = (Throw (Error ("Network Error: No response from server after "
                     +:+ toString 2 +:+ " attempts")), w')
    /\ Z.of_nat (length (requests w')) = Z.of_nat (length (requests Cases.silent)) + 2.
Proof.
  apply (no_response_exhaustion_throws Demo.service "/api/v3/account" [] "GET" 2
           "timeout of 30000ms exceeded" Cases.silent).
  - discriminate.
  - discriminate.
  - lia.
  - intros n config. eexists. split; reflexivity.
Defined.

(** A timed-out account request: three attempts, 3 s and 6 s apart from the
    answers. *)
Example silent_account :
  fst (getAccountInfo Demo.service Cases.silent)
  = Throw (Error "Network Error: No response from server after 3 attempts")
  /\ map fst (requests (snd (getAccountInfo Demo.service Cases.silent)))
     = [Demo.T; Demo.T + 33000; Demo.T + 69000].
Proof. split; vm_compute; reflexivity. Qed.

(** X5.  A response with a status of 500 or more is not retried: the first
    one met ends the call with the exchange's message, after one request,
    whatever [retries] allows. *)
Theorem server_error_is_not_retried this endpoint queryParams httpMethod retries w r code msg :
  apiKey this <> "" ->
  apiSecret this <> "" ->
  1 <= retries ->
  outcome (exchange w (length (requests w))
             (requestConfig this endpoint queryParams httpMethod (clock w))) = Replied r ->
  500 <= AxiosResponse.status r ->
  AxiosResponse.data r = errorBody code msg ->
  msg <> "" ->
  makeRequest this endpoint queryParams httpMethod retries w
  = (Throw (Error ("API Error: " +:+ msg)),
     sent (requestConfig this endpoint queryParams httpMethod (clock w)) w).
Proof.
  intros Hk Hs Hretries Ho Hstatus Hdata Hmsg. unfold makeRequest.
  rewrite (credentials_guard this Hk Hs). unfold bind at 1. unfold Date_now.
  destruct (Z.to_nat retries) as [| fuel] eqn:Hfuel; [lia |].
  cbn [attempts]. replace (1 <=? retries) with true by (symmetry; apply Z.leb_le; lia).
  unfold bind, attempt_body, try_catch, bind, axios, sent. rewrite Ho. cbn.
  replace (AxiosResponse.status r <? 500) with false by (symmetry; apply Z.ltb_ge; lia).
  cbn.
  replace (AxiosResponse.status r =? 429) with false by (symmetry; apply Z.eqb_neq; lia).
  cbn. rewrite Hdata. cbn. rewrite (eqb_empty_false msg Hmsg). reflexivity.
Qed.

Lemma server_error_witness :
  makeRequest Demo.service "/api/v3/account" [] "GET" 3 Cases.down
  = (Throw (Error ("API Error: " +:+ "Internal error.")),
     sent (requestConfig Demo.service "/api/v3/account" [] "GET" (clock Cases.down)) Cases.down).
Proof.
  apply (server_error_is_not_retried Demo.service "/api/v3/account" [] "GET" 3 Cases.down
           {| AxiosResponse.status := 503;
              AxiosResponse.statusText := "Service Unavailable";
              AxiosResponse.data := errorBody (-1001) "Internal error." |} (-1001)).
  - discriminate.
  - discriminate.
  - lia.
  - reflexivity.
  - cbn. lia.
  - reflexivity.
  - discriminate.
Defined.

Lemma attempt_body_success config retries attempt w r :
  AxiosRequestConfig.validateStatus config (AxiosResponse.status r) = true ->
  outcome (exchange w (length (requests w)) config) = Replied r ->
  AxiosResponse.status r < 400 ->
  attempt_body config retries attempt w
  = (Return (Returned (AxiosResponse.data r)), sent config w).
Proof.
  intros Hv Ho Hs. unfold attempt_body, try_catch, bind, axios, sent.
  rewrite Ho, Hv. cbv beta iota.
  replace (400 <=? AxiosResponse.status r) with false by (symmetry; apply Z.leb_gt; lia).
  reflexivity.
Qed.

(** The loop from [attempt] on, when the next [limited] requests are
    answered 429 and the one after them with a status below 400. *)
Lemma attempts_recover config retries r :
  AxiosRequestConfig.validateStatus config 429 = true ->
  AxiosRequestConfig.validateStatus config (AxiosResponse.status r) = true ->
  AxiosResponse.status r < 400 ->
  forall limited fuel attempt w,
    (forall i, (i < limited)%nat ->
       exists r', outcome (exchange w (length (requests w) + i)%nat config) = Replied r'
                  /\ AxiosResponse.status r' = 429) ->
    outcome (exchange w (length (requests w) + limited)%nat config) = Replied r ->
    (limited < fuel)%nat ->
    attempt + Z.of_nat limited <= retries ->
    exists w',
      attempts config retries fuel attempt w = (Return (AxiosResponse.data r), w')
      /\ length (requests w') = (length (requests w) + limited + 1)%nat.
Proof.
  intros Hv429 Hv Hs. induction limited as [| limited IH]; intros fuel attempt w H429 Hok Hfuel Hleft.
  - destruct fuel as [| fuel]; [lia |]. cbn [attempts].
    replace (attempt <=? retries) with true by (symmetry; apply Z.leb_le; lia).
    rewrite Nat.add_0_r in Hok.
    unfold bind. rewrite (attempt_body_success config retries attempt w r Hv Hok Hs).
    eexists. split; [reflexivity |]. cbn. rewrite length_app. cbn. lia.
  - destruct fuel as [| fuel]; [lia |]. cbn [attempts].
    replace (attempt <=? retries) with true by (symmetry; apply Z.leb_le; lia).
    destruct (H429 O) as (r' & Ho' & Hs'); [lia |]. rewrite Nat.add_0_r in Ho'.
    unfold bind. rewrite (attempt_body_429 config retries attempt w r' Hv429 Ho' Hs').
    edestruct (IH fuel (attempt + 1)) as (w' & Hrun & Hlen);
      [| | | | exists w'; split; [exact Hrun |]].
    + intros i Hi. cbn. rewrite length_app. cbn.
      replace (length (requests w) + 1 + i)%nat with (length (requests w) + S i)%nat by lia.
      apply H429. lia.
    + cbn. rewrite length_app. cbn.
      replace (length (requests w) + 1 + limited)%nat
        with (length (requests w) + S limited)%nat by lia.
      exact Hok.
    + lia.
    + lia.
    + rewrite Hlen. cbn. rewrite length_app. cbn. lia.
Qed.

(** X6.  A rate limit that lifts in time is recovered from: when the first
    [limited] attempts are answered 429, with [limited < retries], and the
    next one with a status below 400, [makeRequest] resolves with the body of
    that answer, after [limited + 1] requests. *)
Theorem retry_recovers_from_rate_limit this endpoint queryParams httpMethod retries w limited r :
  apiKey this <> "" ->
  apiSecret this <> "" ->
  let config := requestConfig this endpoint queryParams httpMethod (clock w) in
  (forall i, (i < limited)%nat ->
     exists r', outcome (exchange w (length (requests w) + i)%nat config) = Replied r'
                /\ AxiosResponse.status r' = 429) ->
  outcome (exchange w (length (requests w) + limited)%nat config) = Replied r ->
  AxiosResponse.status r < 400 ->
  Z.of_nat limited < retries ->
  exists w',
    makeRequest this endpoint queryParams httpMethod retries w
    = (Return (AxiosResponse.data r), w')
    /\ length (requests w') = (length (requests w) + limited + 1)%nat.
Proof.
  intros Hk Hs config H429 Hok Hstatus Hlimited. unfold makeRequest.
  rewrite (credentials_guard this Hk Hs). unfold bind, Date_now. fold config.
  apply (attempts_recover config retries r); try assumption.
  - reflexivity.
  - cbn. apply Z.ltb_lt. lia.
  - lia.
  - lia.
Qed.

Lemma retry_recovers_witness :
  exists w',
    makeRequest Demo.service "/api/v3/account" [] "GET" 3 Cases.limited_twice
    = (Return Demo.account, w')
    /\ length (requests w') = (length (requests Cases.limited_twice) + 2 + 1)%nat.
Proof.
  apply (retry_recovers_from_rate_limit Demo.service "/api/v3/account" [] "GET" 3
           Cases.limited_twice 2
           {| AxiosResponse.status := 200;
              AxiosResponse.statusText := "OK";
              AxiosResponse.data := Demo.account |}).
  - discriminate.
  - discriminate.
  - intros i Hi. exists {| AxiosResponse.status := 429;
                           AxiosResponse.statusText := "Too Many Requests";
                           AxiosResponse.data := errorBody (-1003) "Too many requests." |}.
    destruct i as [| [| i]]; [split; reflexivity | split; reflexivity | lia].
  - reflexivity.
  - cbn. lia.
  - lia.
Defined.

(** The run of the loop under a permanent rate limit, with its clock. *)
Lemma attempts_429_clock config retries :
  AxiosRequestConfig.validateStatus config 429 = true ->
  forall fuel attempt w,
    always_429 w ->
    latencies_nonnegative w ->
    1 <= attempt ->
    attempt + Z.of_nat fuel = retries + 1 ->
    clock w + 1000 * (retries * (retries + 1) - (attempt - 1) * attempt)
    <= clock (snd (attempts config retries fuel attempt w)).
Proof.
  intros Hv. induction fuel as [| fuel IH]; intros attempt w H429 Hlat Hattempt Hfuel;
    cbn [attempts].
  - cbn. nia.
  - replace (attempt <=? retries) with true by (symmetry; apply Z.leb_le; lia).
    destruct (H429 (length (requests w)) config) as (r & Ho & Hs).
    unfold bind. rewrite (attempt_body_429 config retries attempt w r Hv Ho Hs).
    pose proof (Hlat (length (requests w)) config) as Hl.
    set (w1 := set_clock (clock (sent config w) + attempt * 2000) (sent config w)).
    assert (Hclock : clock w + attempt * 2000 <= clock w1) by (cbn; lia).
    specialize (IH (attempt + 1) w1).
    assert (Hnext : clock w1 + 1000 * (retries * (retries + 1) - (attempt + 1 - 1) * (attempt + 1))
                    <= clock (snd (attempts config retries fuel (attempt + 1) w1))).
    { apply IH; [exact H429 | exact Hlat | lia | lia]. }
    nia.
Qed.

(** X7.  Under a permanent rate limit the waits add up, the one after the
    last attempt included: a call with [retries] attempts ends no sooner than
    [retries * (retries + 1)] seconds after it began, 12 s for the 3 attempts
    of [getAccountInfo]. *)
Theorem rate_limit_backoff_adds_up this endpoint queryParams httpMethod retries w :
  apiKey this <> "" ->
  apiSecret this <> "" ->
  0 <= retries ->
  always_429 w ->
  latencies_nonnegative w ->
  clock w + 1000 * (retries * (retries + 1))
  <= clock (snd (makeRequest this endpoint queryParams httpMethod retries w)).
Proof.
  intros Hk Hs Hretries H429 Hlat. unfold makeRequest.
  rewrite (credentials_guard this Hk Hs). unfold bind, Date_now.
  pose proof (attempts_429_clock
                (requestConfig this endpoint queryParams httpMethod (clock w)) retries
                eq_refl (Z.to_nat retries) 1 w H429 Hlat) as H.
  cbn [Z.sub] in H. replace ((1 - 1) * 1) with 0 in H by lia.
  rewrite Z.sub_0_r in H. apply H; lia.
Qed.

Lemma rate_limit_backoff_witness :
  clock Demo.rate_limited + 1000 * (3 * (3 + 1))
  <= clock (snd (makeRequest Demo.service "/api/v3/account" [] "GET" 3 Demo.rate_limited)).
Proof.
  apply (rate_limit_backoff_adds_up Demo.service "/api/v3/account" [] "GET" 3 Demo.rate_limited).
  - discriminate.
  - discriminate.
  - lia.
  - intros n config. eexists. split; reflexivity.
  - intros n config. cbn. lia.
Defined.

Example rate_limited_clock :
  clock (snd (getAccountInfo Demo.service Demo.rate_limited)) = Demo.T + 12015.
Proof. vm_compute. reflexivity. Qed.

(** X8.  With [retries] of 0 or less the loop does not run: [makeRequest]
    sends nothing and resolves with [undefined]. *)
Theorem no_attempt_resolves_undefined this endpoint queryParams httpMethod retries w :
  apiKey this <> "" ->
  apiSecret this <> "" ->
  retries <= 0 ->
  makeRequest this endpoint queryParams httpMethod retries w = (Return undefined, w).
Proof.
  intros Hk Hs Hretries. unfold makeRequest.
  rewrite (credentials_guard this Hk Hs). unfold bind, Date_now.
  replace (Z.to_nat retries) with O by lia. reflexivity.
Qed.

Lemma no_attempt_witness :
  makeRequest Demo.service "/api/v3/account" [] "GET" 0 Demo.open_market
  = (Return undefined, Demo.open_market).
Proof.
  apply (no_attempt_resolves_undefined Demo.service "/api/v3/account" [] "GET" 0 Demo.open_market).
  - discriminate.
  - discriminate.
  - lia.
Defined.

(** * Further properties of the valuation *)

Lemma add_nonnegative acc v :
  geb acc (num 0) = true -> gtb v threshold = true -> geb (add acc v) (num 0) = true.
Proof.
  destruct acc as [| [|] | p], v as [| [|] | q]; try number_cases.
  unfold num, threshold, gtb. rewrite !geb_Fin, ltb_Fin. unfold add. rewrite geb_Fin.
  intros Hp Hq. rewrite Qred_correct.
  apply Qle_trans with (y := (0 + 0)%Q); [apply Qle_refl |].
  apply Qplus_le_compat; [exact Hp |].
  apply Qlt_le_weak. eapply Qlt_trans; [| exact Hq]. reflexivity.
Qed.

Lemma fold_add_nonnegative values :
  Forall (fun v => gtb v threshold = true) values ->
  forall acc, geb acc (num 0) = true -> geb (fold_left add values acc) (num 0) = true.
Proof.
  induction 1 as [| v values Hv _ IH]; intros acc Hacc; cbn [fold_left].
  - exact Hacc.
  - apply IH. apply add_nonnegative; assumption.
Qed.

Lemma listed_material priceMap balances :
  Forall (fun v => gtb v threshold = true)
    (map ParsedAsset.usdtValue
       (map (parsedAsset priceMap) (List.filter (listed priceMap) balances))).
Proof.
  apply List.Forall_forall. intros v Hv. apply in_map_iff in Hv.
  destruct Hv as (x & <- & Hx). apply in_map_iff in Hx.
  destruct Hx as (balance & <- & Hin). apply filter_In in Hin. destruct Hin as [_ Hl].
  unfold listed in Hl. apply andb_true_iff in Hl. tauto.
Qed.

Lemma geb_not_NaN v w : geb v w = true -> v <> NaN.
Proof. intros H E. subst v. discriminate H. Qed.

(** X9.  Whatever the exchange sent, malformed amounts and prices included,
    the total of a snapshot is a number: it is never [NaN] and never
    negative, and neither is the value of a listed asset. *)
Theorem snapshot_total_is_a_number this w snapshot w' :
  calculateTotalAssets this w = (Return snapshot, w') ->
  geb (totalUSDT snapshot) (num 0) = true
  /\ totalUSDT snapshot <> NaN
  /\ Forall (fun a => gtb (ParsedAsset.usdtValue a) threshold = true
                      /\ ParsedAsset.usdtValue a <> NaN
                      /\ gtb (ParsedAsset.total a) (num 0) = true)
       (assets snapshot).
Proof.
  intros H. apply calculateTotalAssets_valuate in H.
  destruct H as (a & w1 & ps & priceMap & _ & _ & Htotal & Hassets).
  assert (Hge : geb (totalUSDT snapshot) (num 0) = true).
  { rewrite Htotal, valuate_eq. cbn [fst].
    apply fold_add_nonnegative; [apply listed_material | reflexivity]. }
  split; [exact Hge |]. split; [eapply geb_not_NaN; exact Hge |].
  rewrite Hassets. apply List.Forall_forall. intros x Hx.
  apply In_valuate in Hx. destruct Hx as (balance & _ & Hl & ->).
  unfold listed in Hl. apply andb_true_iff in Hl. destruct Hl as [Hheld Hv].
  split; [exact Hv |]. split; [apply material_not_NaN; exact Hv | exact Hheld].
Qed.

(** The locked amount of BTC and the price of ETHUSDT are no numbers: both
    assets are left out, and the total is the 100 USDT. *)
Lemma snapshot_number_witness :
  exists snapshot,
    fst (calculateTotalAssets Demo.service Cases.garbled_bank) = Return snapshot
    /\ map ParsedAsset.asset (assets snapshot) = ["USDT"]
    /\ totalUSDT snapshot = num 100
    /\ totalUSDT snapshot <> NaN.
Proof.
  destruct (calculateTotalAssets Demo.service Cases.garbled_bank) as [[snapshot | e] w'] eqn:Hrun.
  - exists snapshot. split; [reflexivity |].
    destruct (snapshot_total_is_a_number Demo.service Cases.garbled_bank snapshot w' Hrun)
      as (_ & Hnumber & _).
    apply (f_equal fst) in Hrun. cbn [fst] in Hrun.
    assert (Hs : Return snapshot
                 = Return {| totalUSDT := num 100;
                             assets := [ {| ParsedAsset.asset := "USDT";
                                            ParsedAsset.free := num 100;
                                            ParsedAsset.locked := num 0;
                                            ParsedAsset.total := num 100;
                                            ParsedAsset.usdtValue := num 100;
                                            ParsedAsset.type := "现货";
                                            ParsedAsset.currentPrice := Some (num 1) |} ];
                             lastUpdated := Demo.T + 15 |} :> Completion PortfolioData)
      by (rewrite <- Hrun; vm_compute; reflexivity).
    injection Hs as ->. split; [reflexivity | split; [reflexivity | exact Hnumber]].
  - apply (f_equal fst) in Hrun. cbn [fst] in Hrun.
    exfalso. revert Hrun. vm_compute. discriminate.
Defined.

(** * The symbols asked and the price map *)

Lemma append_length s1 s2 :
  String.length (s1 +:+ s2) = (String.length s1 + String.length s2)%nat.
Proof. induction s1 as [| c s1 IH]; simpl; [reflexivity | f_equal; exact IH]. Qed.

Lemma append_cancel_r t : forall s1 s2, s1 +:+ t = s2 +:+ t -> s1 = s2.
Proof.
  induction s1 as [| c s1 IH]; intros [| d s2] H; simpl in H.
  - reflexivity.
  - apply (f_equal String.length) in H. simpl in H. rewrite ?append_length in H. simpl in H. lia.
  - apply (f_equal String.length) in H. simpl in H. rewrite ?append_length in H. simpl in H. lia.
  - injection H as -> H. f_equal. apply IH. exact H.
Qed.

Lemma symbolsOf_eq heldAssets :
  symbolsOf heldAssets
  = map (fun asset => asset +:+ "USDT")
      (List.filter (fun asset => negb (String.eqb asset "USDT")) heldAssets).
Proof.
  unfold symbolsOf. induction heldAssets as [| a rest IH]; cbn [map List.filter].
  - reflexivity.
  - destruct (String.eqb a "USDT") eqn:Ha; cbn [negb].
    + cbn. exact IH.
    + replace (String.eqb (a +:+ "USDT") "USDTUSDT") with false.
      * cbn [negb map]. rewrite IH. reflexivity.
      * symmetry. apply String.eqb_neq. intros E.
        apply (append_cancel_r "USDT" a "USDT") in E.
        apply String.eqb_neq in Ha. contradiction.
Qed.

(** X10.  The symbols [calculateTotalAssets] asks for are exactly
    [{asset}USDT] for the held assets other than USDT, in the order of the
    balances: USDT itself is never priced. *)
Theorem symbolsOf_skips_the_reference heldAssets :
  symbolsOf heldAssets
  = map (fun asset => asset +:+ "USDT")
      (List.filter (fun asset => negb (String.eqb asset "USDT")) heldAssets)
  /\ ~ In "USDTUSDT" (symbolsOf heldAssets).
Proof.
  split; [apply symbolsOf_eq |].
  unfold symbolsOf. intros Hin. apply filter_In in Hin. destruct Hin as [_ H].
  discriminate H.
Qed.

(** * Further properties of the price map *)

Lemma forEach_set_unquoted prices s :
  (forall p, In (ofPriceData p) prices -> symbol p <> s) ->
  forall priceMap result,
    forEach_set prices priceMap = Return result -> result !! s = priceMap !! s.
Proof.
  induction prices as [| x rest IH]; intros Hno priceMap result Hrun; cbn [forEach_set] in Hrun.
  - injection Hrun as <-. reflexivity.
  - assert (Hrest : forall p, In (ofPriceData p) rest -> symbol p <> s)
      by (intros p Hp; apply Hno; right; exact Hp).
    destruct x as [| a | p | c m | xs]; try discriminate Hrun;
      try (apply (IH Hrest _ _ Hrun)).
    rewrite (IH Hrest _ _ Hrun). apply lookup_insert_ne. apply Hno. left. reflexivity.
Qed.

Lemma forEach_set_total prices :
  ~ In undefined prices ->
  forall priceMap, exists result, forEach_set prices priceMap = Return result.
Proof.
  induction prices as [| x rest IH]; intros Hno priceMap; cbn [forEach_set].
  - eexists. reflexivity.
  - assert (Hrest : ~ In undefined rest) by (intros H; apply Hno; right; exact H).
    destruct x as [| a | p | c m | xs]; try (apply IH; exact Hrest).
    exfalso. apply Hno. left. reflexivity.
Qed.

(** X11.  The price map holds, for a symbol, the last quote of the list
    for it: a later quote of the same symbol overrides an earlier one. *)
Theorem price_map_keeps_the_last_quote before p after result :
  (forall q, In (ofPriceData q) after -> symbol q <> symbol p) ->
  forEach_set (before ++ ofPriceData p :: after) ∅ = Return result ->
  result !! symbol p = Some (parseFloat (price p)).
Proof.
  intros Hlast. generalize (∅ : gmap string number).
  induction before as [| x before IH]; intros priceMap Hrun; cbn [app forEach_set] in Hrun.
  - rewrite (forEach_set_unquoted after (symbol p) Hlast _ _ Hrun).
    apply lookup_insert_eq.
  - destruct x as [| a | q | c m | xs]; try discriminate Hrun; eapply IH; exact Hrun.
Qed.

Lemma price_map_witness :
  exists result,
    forEach_set [Demo.quote "BTCUSDT" "49000"; errorBody 0 ""; Demo.quote "BTCUSDT" "50000"] ∅
    = Return result
    /\ result !! "BTCUSDT" = Some (num 50000).
Proof.
  destruct (forEach_set_total
              [Demo.quote "BTCUSDT" "49000"; errorBody 0 ""; Demo.quote "BTCUSDT" "50000"])
    with (priceMap := (∅ : gmap string number)) as [result Hrun].
  { intros [H | [H | [H | []]]]; discriminate H. }
  exists result. split; [exact Hrun |].
  apply (price_map_keeps_the_last_quote [Demo.quote "BTCUSDT" "49000"; errorBody 0 ""]
           {| symbol := "BTCUSDT"; price := "50000" |} [] result).
  - intros q [].
  - exact Hrun.
Defined.

Lemma forEach_set_domain prices s :
  forall priceMap result,
    forEach_set prices priceMap = Return result ->
    (result !! s = None
     <-> priceMap !! s = None /\ forall p, In (ofPriceData p) prices -> symbol p <> s).
Proof.
  induction prices as [| x rest IH]; intros priceMap result Hrun; cbn [forEach_set] in Hrun.
  - injection Hrun as <-. split; [intros H; split; [exact H | intros p []] | tauto].
  - destruct x as [| a | p | c m | xs]; try discriminate Hrun.
    + rewrite (IH _ _ Hrun). split; intros [Hm Hno]; (split; [exact Hm |]).
      * intros p [Hp | Hp]; [discriminate Hp | auto].
      * intros p Hp. apply Hno. right. exact Hp.
    + rewrite (IH _ _ Hrun). split.
      * intros [Hm Hno]. destruct (String.eqb_spec (symbol p) s) as [E | E].
        -- subst s. rewrite lookup_insert_eq in Hm. discriminate Hm.
        -- rewrite lookup_insert_ne in Hm by exact E. split; [exact Hm |].
           intros q [Hq | Hq]; [injection Hq as <-; exact E | auto].
      * intros [Hm Hno]. assert (E : symbol p <> s) by (apply Hno; left; reflexivity).
        split; [rewrite lookup_insert_ne by exact E; exact Hm |].
        intros q Hq. apply Hno. right. exact Hq.
    + rewrite (IH _ _ Hrun). split; intros [Hm Hno]; (split; [exact Hm |]).
      * intros p [Hp | Hp]; [discriminate Hp | auto].
      * intros p Hp. apply Hno. right. exact Hp.
    + rewrite (IH _ _ Hrun). split; intros [Hm Hno]; (split; [exact Hm |]).
      * intros p [Hp | Hp]; [discriminate Hp | auto].
      * intros p Hp. apply Hno. right. exact Hp.
Qed.

(** X12.  The price map has a price for exactly the symbols the list
    quotes: elements that are no quote add nothing, and no symbol is
    dropped. *)
Theorem price_map_domain prices result s :
  forEach_set prices ∅ = Return result ->
  (result !! s = None <-> forall p, In (ofPriceData p) prices -> symbol p <> s).
Proof.
  intros Hrun. rewrite (forEach_set_domain prices s _ _ Hrun).
  split; [tauto | intros H; split; [apply lookup_empty | exact H]].
Qed.

Lemma price_map_domain_witness :
  exists result,
    forEach_set [Demo.quote "BTCUSDT" "49000"; errorBody 0 ""] ∅ = Return result
    /\ result !! "ETHUSDT" = None
    /\ result !! "BTCUSDT" <> None.
Proof.
  destruct (forEach_set_total [Demo.quote "BTCUSDT" "49000"; errorBody 0 ""])
    with (priceMap := (∅ : gmap string number)) as [result Hrun].
  { intros [H | [H | []]]; discriminate H. }
  exists result. split; [exact Hrun |]. split.
  - apply (price_map_domain [Demo.quote "BTCUSDT" "49000"; errorBody 0 ""] result "ETHUSDT" Hrun).
    intros p [Hp | [Hp | []]]; [injection Hp as <-; discriminate | discriminate Hp].
  - intros Hnone.
    apply (price_map_domain [Demo.quote "BTCUSDT" "49000"; errorBody 0 ""] result "BTCUSDT" Hrun)
      with (p := {| symbol := "BTCUSDT"; price := "49000" |}) in Hnone.
    + apply Hnone. reflexivity.
    + left. reflexivity.
Defined.

(** * Which prices [calculateTotalAssets] fetches *)

Lemma only_reference_symbols heldAssets :
  Forall (fun asset => asset = "USDT") heldAssets -> symbolsOf heldAssets = [].
Proof.
  intros H. rewrite symbolsOf_eq. induction H as [| a rest -> _ IH]; [reflexivity | exact IH].
Qed.

(** X13.  Once the account is there, the prices come from one of two
    sources.  With no held asset, or 50 and more, [calculateTotalAssets]
    sends what one call of [getAllPrices] sends and nothing else.  With an
    account that holds USDT only it sends nothing more at all: the snapshot
    is computed from the account alone. *)
Theorem price_source_by_held_assets this w a w1 :
  getAccountInfo this w = (Return (ofAccountInfo a), w1) ->
  let held := heldAssetsOf (balances a) in
  (held = [] \/ (50 <= length held)%nat ->
     requests (snd (calculateTotalAssets this w)) = requests (snd (getAllPrices w1)))
  /\ (held <> [] -> (length held < 50)%nat -> Forall (fun asset => asset = "USDT") held ->
        fst (calculateTotalAssets this w)
        = Return {| totalUSDT := fst (valuate (balances a) ∅);
                    assets := snd (valuate (balances a) ∅);
                    lastUpdated := clock w1 |}
        /\ requests (snd (calculateTotalAssets this w)) = requests w1).
Proof.
  intros Hacc held. split.
  - intros Hheld. unfold calculateTotalAssets, bind. rewrite Hacc. fold held.
    replace ((0 <? length held)%nat && (length held <? 50)%nat) with false.
    + destruct (getAllPrices w1) as [[prices | e] w2]; [| reflexivity].
      destruct prices as [| a' | p | c m | ps]; try reflexivity.
      destruct (forEach_set ps ∅) as [priceMap | e]; [| reflexivity].
      destruct (valuate (balances a) priceMap). reflexivity.
    + symmetry. destruct Hheld as [-> | Hmany]; [reflexivity |].
      apply andb_false_iff. right. apply Nat.ltb_ge. exact Hmany.
  - intros Hne Hfew Husdt. unfold calculateTotalAssets, bind. rewrite Hacc. fold held.
    replace ((0 <? length held)%nat && (length held <? 50)%nat) with true.
    + rewrite (only_reference_symbols held Husdt).
      unfold alloc, getSymbolPrices, bind, read. cbn [heap set_heap].
      rewrite lookup_insert_eq. cbn.
      destruct (valuate (balances a) ∅). cbn. auto.
    + symmetry. apply andb_true_iff. split; [| apply Nat.ltb_lt; exact Hfew].
      apply Nat.ltb_lt. destruct held; [congruence | cbn; lia].
Qed.

Lemma price_source_witness :
  fst (calculateTotalAssets Demo.service Cases.savings_bank)
  = Return {| totalUSDT := Fin (501 # 2); assets :=
                [ {| ParsedAsset.asset := "USDT";
                     ParsedAsset.free := Fin (501 # 2);
                     ParsedAsset.locked := num 0;
                     ParsedAsset.total := Fin (501 # 2);
                     ParsedAsset.usdtValue := Fin (501 # 2);
                     ParsedAsset.type := "现货";
                     ParsedAsset.currentPrice := Some (num 1) |} ];
              lastUpdated := Demo.T + 5 |}
  /\ length (requests (snd (calculateTotalAssets Demo.service Cases.savings_bank))) = 1%nat
  /\ length (requests (snd (calculateTotalAssets Demo.service Cases.empty_bank))) = 2%nat.
Proof.
  destruct (getAccountInfo Demo.service Cases.savings_bank) as [c w1] eqn:Hrun.
  assert (Hc : c = Return Cases.savings)
    by (apply (f_equal fst) in Hrun; cbn [fst] in Hrun; rewrite <- Hrun; vm_compute; reflexivity).
  assert (Hw : clock w1 = Demo.T + 5 /\ length (requests w1) = 1%nat)
    by (apply (f_equal snd) in Hrun; cbn [snd] in Hrun; rewrite <- Hrun; split; vm_compute; reflexivity).
  subst c.
  destruct (price_source_by_held_assets Demo.service Cases.savings_bank _ w1 Hrun)
    as [_ Honly].
  destruct Honly as [Hsnapshot Hrequests].
  - vm_compute. discriminate.
  - vm_compute. lia.
  - repeat constructor.
  - split; [| split].
    + rewrite Hsnapshot. destruct Hw as [-> _]. vm_compute. reflexivity.
    + rewrite Hrequests. apply Hw.
    + destruct (getAccountInfo Demo.service Cases.empty_bank) as [c2 w2] eqn:Hrun2.
      assert (Hc2 : c2 = Return Cases.empty_account)
        by (apply (f_equal fst) in Hrun2; cbn [fst] in Hrun2; rewrite <- Hrun2;
            vm_compute; reflexivity).
      subst c2.
      destruct (price_source_by_held_assets Demo.service Cases.empty_bank _ w2 Hrun2)
        as [Hall _].
      rewrite Hall; [| left; reflexivity].
      apply (f_equal snd) in Hrun2. cbn [snd] in Hrun2. rewrite <- Hrun2.
      vm_compute. reflexivity.
Defined.

(** * What the cache never holds *)

(** X14.  The cache never records a failed snapshot: when the request of
    [getAllPrices] fails, the error is thrown and the cache is as it was. *)
Theorem failed_snapshot_is_not_cached w :
  cache_miss "allPrices" w ->
  success all_prices_config (exchange w (length (requests w)) all_prices_config) = None ->
  (exists e, fst (getAllPrices w) = Throw e)
  /\ priceCache (snd (getAllPrices w)) = priceCache w.
Proof.
  intros Hm Hs. pose proof (getAllPrices_miss w Hm) as Hrun. cbv zeta in Hrun.
  rewrite Hs in Hrun. destruct Hrun as (e & ->). split; [exists e |]; reflexivity.
Qed.

Lemma failed_snapshot_witness :
  (exists e, fst (getAllPrices Cases.down) = Throw e)
  /\ priceCache (snd (getAllPrices Cases.down)) = priceCache Cases.down.
Proof.
  apply (failed_snapshot_is_not_cached Cases.down).
  - apply empty_cache_miss. reflexivity.
  - vm_compute. reflexivity.
Defined.

(** X15.  A batch that obtains no quote stores nothing under its key: after
    [getSymbolPrices] every entry of the cache other than ["allPrices"],
    which the fallback may write, is as it was. *)
Theorem empty_batch_is_not_cached w symbols elements key :
  heap w !! symbols = Some elements ->
  elements <> [] ->
  cache_miss (String.concat "," (Array_sort default_compare elements)) w ->
  answers (sorted_in_place symbols elements w) (Array_sort default_compare elements) = [] ->
  key <> "allPrices" ->
  priceCache (snd (getSymbolPrices symbols w)) !! key = priceCache w !! key.
Proof.
  intros Hh Hne Hm Hq Hkey.
  rewrite (getSymbolPrices_miss _ _ _ Hh Hne Hm). rewrite Hq. cbn [length Nat.ltb Nat.leb].
  set (sorted := Array_sort default_compare elements).
  destruct (fetched_frame sorted (sorted_in_place symbols elements w)) as (_ & Hcache & _ & _).
  cbn [sorted_in_place priceCache set_heap] in Hcache.
  set (w1 := fetched (sorted_in_place symbols elements w) sorted) in *.
  destruct (cache_hit_or_miss "allPrices" w1) as [(cached & Hc & Ht) | Hmiss].
  - rewrite (getAllPrices_hit _ _ Hc Ht). cbn [snd]. rewrite Hcache. reflexivity.
  - pose proof (getAllPrices_miss w1 Hmiss) as Hrun. cbv zeta in Hrun.
    destruct (success all_prices_config _) as [prices |].
    + rewrite Hrun. cbn [snd set_priceCache priceCache].
      rewrite lookup_insert_ne by congruence.
      change (priceCache w1 !! key = priceCache w !! key). rewrite Hcache. reflexivity.
    + destruct Hrun as (e & ->). cbn [snd].
      change (priceCache w1 !! key = priceCache w !! key). rewrite Hcache. reflexivity.
Qed.

Lemma empty_batch_witness :
  priceCache (snd (getSymbolPrices 1%positive
                     (Demo.with_array ["NOPEUSDT"; "ABCUSDT"] Demo.open_market)))
  !! "ABCUSDT,NOPEUSDT"
  = priceCache (Demo.with_array ["NOPEUSDT"; "ABCUSDT"] Demo.open_market) !! "ABCUSDT,NOPEUSDT".
Proof.
  apply (empty_batch_is_not_cached (Demo.with_array ["NOPEUSDT"; "ABCUSDT"] Demo.open_market)
           1%positive ["NOPEUSDT"; "ABCUSDT"] "ABCUSDT,NOPEUSDT").
  - reflexivity.
  - discriminate.
  - apply empty_cache_miss. reflexivity.
  - vm_compute. reflexivity.
  - discriminate.
Defined.

(** * The routes *)







(** A token that contains USDT loses the first occurrence, not the suffix. *)
Example token_with_reference_inside :
  symbolsOfTokens ["usdtx"] = ["USDTXUSDT"]
  /\ TokenPrice.token (tokenPrice {| symbol := "USDTXUSDT"; price := "1" |}) = "xusdt".
Proof. split; reflexivity. Qed.

Lemma tokenPrices_total prices :
  (exists rows, tokenPrices prices = Return rows /\ length rows = length prices)
  \/ (exists message, tokenPrices prices = Throw (TypeError message)).
Proof.
  induction prices as [| x rest IH]; cbn [tokenPrices].
  - left. exists []. auto.
  - destruct x as [| a | p | c m | xs]; try (right; eexists; reflexivity).
    destruct IH as [(rows & -> & Hlen) | (message & ->)].
    + left. eexists. split; [reflexivity |]. cbn. rewrite Hlen. reflexivity.
    + right. eexists. reflexivity.
Qed.

(** X17.  [POST /api/token-prices] always answers: with 400 exactly when
    [tokens] is absent, no array or empty, in which case nothing was sent and
    nothing changed, and with 200 or 500 otherwise; a failure never escapes
    the route. *)
Theorem token_prices_always_answers tokens w :
  exists response,
    fst (post_token_prices tokens w) = Return response
    /\ (statusCode response = 200 \/ statusCode response = 400 \/ statusCode response = 500)
    /\ (statusCode response = 400 <-> tokens = None \/ tokens = Some [])
    /\ (statusCode response = 400 ->
          body response = tokens_required /\ snd (post_token_prices tokens w) = w).
Proof.
  destruct tokens as [[| token rest] |].
  - eexists. split; [reflexivity |]. cbn. repeat split; auto; lia.
  - unfold post_token_prices, try_catch, bind.
    destruct (alloc (symbolsOfTokens (token :: rest)) w) as [[symbols | e] w1].
    + destruct (getSymbolPrices symbols w1) as [[prices | e] w2].
      * destruct prices as [| a | p | c m | ps];
          try (eexists; split; [reflexivity |]; cbn;
               split; [lia |]; split; [split; [lia | intros [H | H]; discriminate H] | lia]).
        destruct (tokenPrices_total ps) as [(rows & -> & _) | (message & ->)];
          eexists; (split; [reflexivity |]); cbn;
          (split; [lia |]); (split; [split; [lia | intros [H | H]; discriminate H] | lia]).
      * eexists. split; [reflexivity |]. cbn.
        split; [lia |]. split; [split; [lia | intros [H | H]; discriminate H] | lia].
    + eexists. split; [reflexivity |]. cbn.
      split; [lia |]. split; [split; [lia | intros [H | H]; discriminate H] | lia].
  - eexists. split; [reflexivity |]. cbn. repeat split; auto; lia.
Qed.

Lemma only_reference_tokens tokens :
  Forall (fun token => toUpperCase token = "USDT") tokens -> symbolsOfTokens tokens = [].
Proof.
  unfold symbolsOfTokens. induction 1 as [| token rest Ht _ IH]; cbn [map List.filter].
  - reflexivity.
  - rewrite Ht. cbn. exact IH.
Qed.

(** X18.  Asked for USDT alone, in any case of the letters,
    [POST /api/token-prices] answers 200 with an empty list and sends
    nothing: the reference currency has no price of its own. *)
Theorem reference_token_has_no_price tokens w :
  tokens <> [] ->
  Forall (fun token => toUpperCase token = "USDT") tokens ->
  fst (post_token_prices (Some tokens) w)
  = Return {| statusCode := 200; body := token_prices [] |}
  /\ requests (snd (post_token_prices (Some tokens) w)) = requests w
  /\ priceCache (snd (post_token_prices (Some tokens) w)) = priceCache w.
Proof.
  intros Hne Hall. destruct tokens as [| token rest]; [congruence |].
  unfold post_token_prices, try_catch, bind.
  rewrite (only_reference_tokens _ Hall).
  unfold alloc, getSymbolPrices, bind, read. cbn [heap set_heap].
  rewrite lookup_insert_eq. cbn. auto.
Qed.

Lemma reference_token_witness :
  fst (post_token_prices (Some ["usdt"; "USDT"; "UsDt"]) Demo.open_market)
  = Return {| statusCode := 200; body := token_prices [] |}
  /\ requests (snd (post_token_prices (Some ["usdt"; "USDT"; "UsDt"]) Demo.open_market))
     = requests Demo.open_market
  /\ priceCache (snd (post_token_prices (Some ["usdt"; "USDT"; "UsDt"]) Demo.open_market))
     = priceCache Demo.open_market.
Proof.
  apply (reference_token_has_no_price ["usdt"; "USDT"; "UsDt"] Demo.open_market).
  - discriminate.
  - repeat constructor.
Defined.

(** X19.  When none of the symbols asked obtains a quote, what
    [POST /api/token-prices] answers is the whole market: one row for every
    quote of the full snapshot, the tokens asked or not. *)
Theorem unknown_tokens_return_the_market tokens w ps rows :
  symbolsOfTokens tokens <> [] ->
  let location := fresh (dom (heap w)) in
  let w0 := set_heap (<[location := symbolsOfTokens tokens]> (heap w)) w in
  let sorted := Array_sort default_compare (symbolsOfTokens tokens) in
  let w1 := fetched (sorted_in_place location (symbolsOfTokens tokens) w0) sorted in
  cache_miss (String.concat "," sorted) w ->
  cache_miss "allPrices" w1 ->
  answers (sorted_in_place location (symbolsOfTokens tokens) w0) sorted = [] ->
  success all_prices_config (exchange w1 (length (requests w1)) all_prices_config)
  = Some (array ps) ->
  tokenPrices ps = Return rows ->
  fst (post_token_prices (Some tokens) w)
  = Return {| statusCode := 200; body := token_prices rows |}
  /\ length rows = length ps.
Proof.
  intros Hne location w0 sorted w1 Hmiss Hall Hnone Hsnapshot Hrows.
  assert (Htokens : tokens <> []) by (intros ->; apply Hne; reflexivity).
  destruct tokens as [| token rest]; [congruence |].
  unfold post_token_prices, try_catch, bind.
  unfold alloc at 1. fold location. fold w0.
  assert (Hheap : heap w0 !! location = Some (symbolsOfTokens (token :: rest)))
    by apply lookup_insert_eq.
  rewrite (getSymbolPrices_miss w0 location _ Hheap Hne Hmiss).
  fold sorted. rewrite Hnone. cbn [length Nat.ltb Nat.leb]. fold w1.
  pose proof (getAllPrices_miss w1 Hall) as Hrun. cbv zeta in Hrun.
  rewrite Hsnapshot in Hrun. rewrite Hrun, Hrows.
  split; [reflexivity |].
  destruct (tokenPrices_total ps) as [(rows' & Hrows' & Hlen) | (message & Hthrow)].
  - rewrite Hrows in Hrows'. injection Hrows' as ->. exact Hlen.
  - rewrite Hrows in Hthrow. discriminate Hthrow.
Qed.

Lemma unknown_tokens_witness :
  fst (post_token_prices (Some ["nope"]) Demo.open_market)
  = Return {| statusCode := 200;
              body := token_prices
                        [ {| TokenPrice.token := "btc"; TokenPrice.price := num 50000 |};
                          {| TokenPrice.token := "eth"; TokenPrice.price := num 3000 |} ] |}
  /\ length [ {| TokenPrice.token := "btc"; TokenPrice.price := num 50000 |};
              {| TokenPrice.token := "eth"; TokenPrice.price := num 3000 |} ]
     = length [Demo.quote "BTCUSDT" "50000.00000000"; Demo.quote "ETHUSDT" "3000.00"].
Proof.
  apply (unknown_tokens_return_the_market ["nope"] Demo.open_market
           [Demo.quote "BTCUSDT" "50000.00000000"; Demo.quote "ETHUSDT" "3000.00"]).
  - discriminate.
  - apply empty_cache_miss. reflexivity.
  - apply empty_cache_miss. reflexivity.
  - vm_compute. reflexivity.
  - vm_compute. reflexivity.
  - vm_compute. reflexivity.
Defined.

(** X20.  Without credentials [GET /api/holdings] answers 500 with the
    configuration message, and nothing was sent. *)
Theorem holdings_without_credentials this w :
  apiKey this = "" \/ apiSecret this = "" ->
  get_holdings this w
  = (Return {| statusCode := 500;
               body := failure "Failed to get holdings"
                         "Missing BINANCE_API_KEY or BINANCE_SECRET_KEY environment variables" |},
     w).
Proof.
  intros H. apply credentials_guard_missing in H.
  unfold get_holdings, try_catch, bind, calculateTotalAssets, bind, getAccountInfo, makeRequest.
  rewrite H. reflexivity.
Qed.

Lemma holdings_without_credentials_witness :
  get_holdings Demo.unconfigured Demo.open_market
  = (Return {| statusCode := 500;
               body := failure "Failed to get holdings"
                         "Missing BINANCE_API_KEY or BINANCE_SECRET_KEY environment variables" |},
     Demo.open_market).
Proof.
  apply (holdings_without_credentials Demo.unconfigured Demo.open_market).
  right. reflexivity.
Defined.

(** X21.  Under a permanent rate limit [GET /api/holdings] answers 500, and
    the message is not about the rate limit: it is the message of the
    [TypeError] that [calculateTotalAssets] throws when it reads [balances]
    off the [undefined] that [makeRequest] resolved with. *)
Theorem holdings_under_rate_limit this w :
  apiKey this <> "" ->
  apiSecret this <> "" ->
  always_429 w ->
  exists message,
    fst (calculateTotalAssets this w) = Throw (TypeError message)
    /\ fst (get_holdings this w)
       = Return {| statusCode := 500;
                   body := failure "Failed to get holdings" message |}.
Proof.
  intros Hk Hs H429.
  unfold get_holdings, try_catch, bind, calculateTotalAssets, bind, getAccountInfo, makeRequest.
  rewrite (credentials_guard this Hk Hs). unfold bind, Date_now.
  destruct (attempts_429 (requestConfig this "/api/v3/account" [] "GET" (clock w)) 3 eq_refl
              3%nat 1 w H429 eq_refl) as (w' & Hrun & _).
  change (Z.to_nat 3) with 3%nat. rewrite Hrun. eexists. split; reflexivity.
Qed.

Lemma holdings_under_rate_limit_witness :
  exists message,
    fst (calculateTotalAssets Demo.service Demo.rate_limited) = Throw (TypeError message)
    /\ fst (get_holdings Demo.service Demo.rate_limited)
       = Return {| statusCode := 500;
                   body := failure "Failed to get holdings" message |}.
Proof.
  apply (holdings_under_rate_limit Demo.service Demo.rate_limited).
  - discriminate.
  - discriminate.
  - intros n config. eexists. split; reflexivity.
Defined.

(** The message, in the wording of V8. *)
Example holdings_rate_limited_message :
  fst (get_holdings Demo.service Demo.rate_limited)
  = Return {| statusCode := 500;
              body := failure "Failed to get holdings"
                        "Cannot read properties of undefined (reading 'balances')" |}.
Proof. vm_compute. reflexivity. Qed.

(** X22.  [GET /api/holdings] always answers, with 200 or 500.  The rows of
    a 200 are the assets of the snapshot in its order, one row each, every
    amount positive and every type the spot type. *)
Theorem holdings_always_answers this w :
  exists response,
    fst (get_holdings this w) = Return response
    /\ (statusCode response = 200 \/ statusCode response = 500)
    /\ (statusCode response = 200 ->
          exists snapshot,
            fst (calculateTotalAssets this w) = Return snapshot
            /\ body response = holdings (map holding (assets snapshot))
            /\ Forall (fun row => gtb (Holding.amount row) (num 0) = true
                                  /\ Holding.type row = "现货")
                 (map holding (assets snapshot))).
Proof.
  unfold get_holdings, try_catch, bind.
  destruct (calculateTotalAssets this w) as [[snapshot | e] w'] eqn:Hrun.
  - eexists. split; [reflexivity |]. cbn. split; [left; reflexivity |].
    intros _. exists snapshot. split; [reflexivity |]. split; [reflexivity |].
    apply calculateTotalAssets_valuate in Hrun.
    destruct Hrun as (a & w1 & ps & priceMap & _ & _ & _ & Hassets).
    rewrite Hassets. apply List.Forall_forall. intros row Hrow.
    apply in_map_iff in Hrow. destruct Hrow as (x & <- & Hx).
    apply In_valuate in Hx. destruct Hx as (balance & _ & Hl & ->).
    unfold listed in Hl. apply andb_true_iff in Hl. destruct Hl as [Hheld _].
    split; [exact Hheld | reflexivity].
  - eexists. split; [reflexivity |]. cbn. split; [right; reflexivity | discriminate].
Qed.

Example holdings_of_the_demo_account :
  fst (get_holdings Demo.service Demo.open_market)
  = Return {| statusCode := 200;
              body := holdings [ {| Holding.token := "btc"; Holding.type := "现货";
                                    Holding.amount := num 1 |};
                                 {| Holding.token := "usdt"; Holding.type := "现货";
                                    Holding.amount := num 100 |} ] |}.
Proof. vm_compute. reflexivity. Qed.

(** * The shape of a signature *)

Lemma round_length st kw : length st = 8%nat -> length (Crypto.round st kw) = 8%nat.
Proof.
  destruct st as [| a [| b [| c [| d [| e [| f [| g [| h [| x rest]]]]]]]]]; intros H;
    try discriminate H; reflexivity.
Qed.

Lemma rounds_length kws : forall st,
  length st = 8%nat -> length (fold_left Crypto.round kws st) = 8%nat.
Proof.
  induction kws as [| kw kws IH]; intros st H; cbn [fold_left]; [exact H |].
  apply IH. apply round_length. exact H.
Qed.

Lemma compress_length h block : length h = 8%nat -> length (Crypto.compress h block) = 8%nat.
Proof.
  intros H. unfold Crypto.compress. rewrite length_map, length_combine, rounds_length, H by exact H.
  reflexivity.
Qed.

Lemma blocks_length n : forall h bs, length h = 8%nat -> length (Crypto.blocks n h bs) = 8%nat.
Proof.
  induction n as [| n IH]; intros h bs H; cbn [Crypto.blocks]; [exact H |].
  apply IH. apply compress_length. exact H.
Qed.

Lemma flat_map_length {A B} (f : A -> list B) (k : nat) (l : list A) :
  (forall x, length (f x) = k) -> length (flat_map f l) = (k * length l)%nat.
Proof.
  intros Hf. induction l as [| x l IH]; cbn [flat_map length]; [lia |].
  rewrite length_app, Hf, IH. lia.
Qed.

Lemma sha256_length msg : length (Crypto.sha256 msg) = 32%nat.
Proof.
  unfold Crypto.sha256. rewrite (flat_map_length _ 4); [| reflexivity].
  rewrite blocks_length; reflexivity.
Qed.

Lemma string_of_list_length l : String.length (string_of_list_ascii l) = length l.
Proof. induction l as [| c l IH]; cbn; [reflexivity | f_equal; exact IH]. Qed.

Lemma hex_digit_in d : In (Crypto.hex_digit d) (list_ascii_of_string "0123456789abcdef").
Proof.
  unfold Crypto.hex_digit.
  destruct (Nat.lt_ge_cases (Z.to_nat d) (length (list_ascii_of_string "0123456789abcdef")))
    as [Hlt | Hge].
  - apply nth_In. exact Hlt.
  - rewrite nth_overflow by exact Hge. left. reflexivity.
Qed.

Lemma hex_shape bs :
  String.length (Crypto.hex bs) = (2 * length bs)%nat
  /\ Forall (fun c => In c (list_ascii_of_string "0123456789abcdef"))
       (list_ascii_of_string (Crypto.hex bs)).
Proof.
  unfold Crypto.hex. rewrite string_of_list_length, list_ascii_of_string_of_list_ascii.
  split.
  - apply flat_map_length. reflexivity.
  - apply List.Forall_forall. intros c Hc. apply in_flat_map in Hc.
    destruct Hc as (b & _ & [<- | [<- | []]]); apply hex_digit_in.
Qed.

(** X23.  A signature is a digest in hex: with a secret and something to
    sign, [createSignature] returns 64 characters, every one of them a digit
    or a letter from a to f; it is empty only on the guard of its first
    line. *)
Theorem signature_is_64_hex_digits this queryString :
  apiSecret this <> "" ->
  queryString <> "" ->
  String.length (createSignature this queryString) = 64%nat
  /\ Forall (fun c => In c (list_ascii_of_string "0123456789abcdef"))
       (list_ascii_of_string (createSignature this queryString)).
Proof.
  intros Hs Hq. unfold createSignature.
  rewrite (eqb_empty_false _ Hs), (eqb_empty_false _ Hq). cbn [orb].
  unfold Crypto.createHmac_sha256_hex.
  destruct (hex_shape (Crypto.hmac_sha256 (Crypto.bytes_of_string (apiSecret this))
                         (Crypto.bytes_of_string queryString))) as [Hlen Hall].
  split; [| exact Hall].
  rewrite Hlen. unfold Crypto.hmac_sha256. rewrite sha256_length. reflexivity.
Qed.

Lemma signature_shape_witness :
  String.length (createSignature Demo.service "timestamp=1700000000000") = 64%nat
  /\ Forall (fun c => In c (list_ascii_of_string "0123456789abcdef"))
       (list_ascii_of_string (createSignature Demo.service "timestamp=1700000000000")).
Proof.
  apply (signature_is_64_hex_digits Demo.service "timestamp=1700000000000").
  - discriminate.
  - discriminate.
Defined.

(** X24.  A call without parameters, as [getAccountInfo] makes it, signs the
    timestamp alone: what is signed is [timestamp=<timestamp>] with no [&]
    before it, and the query sent is that string, [&signature=] and its hex
    HMAC-SHA256 under the API secret. *)
Theorem bare_request_signs_the_timestamp this endpoint timestamp :
  apiSecret this <> "" ->
  let signed := "timestamp=" +:+ toString timestamp in
  let signature := Crypto.createHmac_sha256_hex (apiSecret this) signed in
  fullQueryWithSignature this [] timestamp = signed +:+ "&signature=" +:+ signature
  /\ AxiosRequestConfig.url (requestConfig this endpoint [] "GET" timestamp)
     = baseURL +:+ endpoint +:+ "?" +:+ signed +:+ "&signature=" +:+ signature.
Proof.
  intros Hs signed signature.
  assert (Hfull : fullQueryWithSignature this [] timestamp
                  = signed +:+ "&signature=" +:+ signature).
  { unfold fullQueryWithSignature.
    change (0 <? Z.of_nat (length (@nil (string * string)))) with false. cbv iota zeta.
    change (String.eqb "" "") with true. cbv iota.
    change ("timestamp=" +:+ toString timestamp) with signed.
    unfold createSignature.
    rewrite (eqb_empty_false _ Hs). rewrite (eqb_empty_false signed); [reflexivity |].
    subst signed. discriminate. }
  unfold requestConfig. cbn. rewrite Hfull. auto.
Qed.

Lemma bare_request_witness :
  fullQueryWithSignature Demo.service [] Demo.T
  = "timestamp=1700000000000" +:+ "&signature="
    +:+ Crypto.createHmac_sha256_hex "demo-secret" "timestamp=1700000000000"
  /\ AxiosRequestConfig.url (requestConfig Demo.service "/api/v3/account" [] "GET" Demo.T)
     = baseURL +:+ "/api/v3/account" +:+ "?" +:+ "timestamp=1700000000000" +:+ "&signature="
       +:+ Crypto.createHmac_sha256_hex "demo-secret" "timestamp=1700000000000".
Proof.
  pose proof (bare_request_signs_the_timestamp Demo.service "/api/v3/account" Demo.T) as H.
  cbv zeta in H. destruct H as [Hfull Hurl]; [discriminate |].
  split.
  - etransitivity; [exact Hfull | vm_compute; reflexivity].
  - etransitivity; [exact Hurl | vm_compute; reflexivity].
Defined.
